(** * Budget tracker (app.py): a shallow embedding and its properties

    The Flask application keeps two tables, [User] and [Transaction], and
    serves five routes.  The embedding below follows app.py handler by
    handler:

    - amounts are Python floats, i.e. IEEE-754 binary64 numbers; they are
      modelled by Rocq's primitive floats, whose operations are the same
      binary64 operations with round-to-nearest-even;
    - the builtin [sum] is modelled for both of its algorithms, the plain
      one of CPython up to 3.11 and the compensated one of 3.12, and the
      version of the interpreter is a variable of the development;
    - Python [str] values are modelled by [string], holding the UTF-8
      encoding of the text;
    - the database is a record of two row lists in rowid order; a request
      handler is a function from the database, the session cookie and the
      request (plus the clock reading or the random salt it consumes) to the
      new database, the new session and the response. *)

From Stdlib Require Import ZArith List String Ascii Bool Lia Floats.
From Stdlib Require Import Permutation Sorted.
Import ListNotations.

Set Warnings "-inexact-float".

Local Open Scope string_scope.
Local Open Scope Z_scope.

(* ================================================================== *)
(** ** Python numbers *)

Module Py.

(** Python's [0 + x] with the integer [0] converts [0] to [0.0]; an
    accumulation that starts at the integer [0] is modelled by one that
    starts at [+0.0]. *)
Definition zero : float := 0%float.

(** Left-to-right accumulation with [+] from [0]: what the loop over the
    categories computes with [d.get(k, 0) + amount], and what the builtin
    [sum] computes up to CPython 3.11. *)
Definition sum (xs : list float) : float :=
  fold_left PrimFloat.add xs zero.

(** The builtin [sum] on floats changed in CPython 3.12, and app.py does
    not say which interpreter runs it. *)
Inductive version := UpTo311 | From312.

(** From 3.12 on, [sum] carries a compensation term [c] besides the
    running sum (bltinmodule.c, after Neumaier): one turn of its loop, *)
Definition compensate (state : float * float) (x : float) : float * float :=
  let '(f_result, c) := state in
  let t := (f_result + x)%float in
  (t,
   if PrimFloat.leb (PrimFloat.abs x) (PrimFloat.abs f_result)
   then (c + ((f_result - t) + x))%float
   else (c + ((x - t) + f_result))%float).

(** and its end: the term is added when it is not zero and finite. *)
Definition finish (state : float * float) : float :=
  let '(f_result, c) := state in
  if negb (PrimFloat.eqb c 0%float) && PrimFloat.is_finite c
  then (f_result + c)%float
  else f_result.

(** [sum(xs)] for an iterable of floats: the integer [0] for none; else
    the first float is added to the integer [0], and the others are
    accumulated onto it, plainly or with the compensation term. *)
Definition builtin_sum (python : version) (xs : list float) : float :=
  match xs with
  | [] => zero
  | x :: rest =>
      match python with
      | UpTo311 => fold_left PrimFloat.add rest (zero + x)%float
      | From312 => finish (fold_left compensate rest ((zero + x)%float, zero))
      end
  end.

(** The compensation term at the end of the loop of 3.12. *)
Definition compensation (xs : list float) : float :=
  match xs with
  | [] => zero
  | x :: rest => snd (fold_left compensate rest ((zero + x)%float, zero))
  end.

(** [bool(x)] for a float: [x != 0.0] (a NaN is truthy). *)
Definition truthy (x : float) : bool := negb (PrimFloat.eqb x 0%float).

(** [math.isnan]. *)
Definition isnan (x : float) : bool := negb (PrimFloat.eqb x x).

(** Round a non-negative rational [n / d] to the nearest integer, ties to
    the even neighbour. *)
Definition half_even (n d : Z) : Z :=
  let q := n / d in
  let r := n mod d in
  match 2 * r ?= d with
  | Lt => q
  | Gt => q + 1
  | Eq => if Z.even q then q else q + 1
  end.

(** [round(x, 2)] on a float (CPython's [float.__round__] with
    [ndigits = 2]): the exact binary value is rounded half-even to two
    decimals, and the decimal result is converted to the nearest
    binary64.  Zeros, infinities and NaN are returned as they are, and so
    is every float that is already an integer. *)
Definition round2 (x : float) : float :=
  match Prim2SF x with
  | S754_finite s m e =>
      if 0 <=? e then x
      else
        match half_even (Zpos m * 100) (2 ^ (- e)) with
        | Zpos k =>
            SF2Prim (SFdiv prec emax (S754_finite s k 0)
                                     (S754_finite false 100 0))
        | _ => SF2Prim (S754_zero s)
        end
  | _ => x
  end.

(** A dict with keys of type [K]: Python dicts iterate in insertion
    order, and assigning to a key that is present keeps its position. *)
Section Dict.
Context {K : Type} (eqb : K -> K -> bool).

Definition dict := list (K * float).

Fixpoint get (d : dict) (k : K) (default : float) : float :=
  match d with
  | [] => default
  | (k', v) :: d' => if eqb k' k then v else get d' k default
  end.

Fixpoint lookup (d : dict) (k : K) : option float :=
  match d with
  | [] => None
  | (k', v) :: d' => if eqb k' k then Some v else lookup d' k
  end.

Fixpoint set (d : dict) (k : K) (v : float) : dict :=
  match d with
  | [] => [(k, v)]
  | (k', v') :: d' =>
      if eqb k' k then (k', v) :: d' else (k', v') :: set d' k v
  end.

Definition keys (d : dict) : list K := map fst d.
Definition values (d : dict) : list float := map snd d.
End Dict.

End Py.

(* ================================================================== *)
(** ** WTForms validators *)

Module Validators.

Definition code (c : ascii) : N := N_of_ascii c.

(** One-byte whitespace of [str.isspace]: U+0009..U+000D, U+001C..U+001F
    and U+0020. *)
Definition space1 (c : ascii) : bool :=
  let n := code c in
  ((9 <=? n) && (n <=? 13) || (28 <=? n) && (n <=? 32))%N.

(** [all_space s]: every character of [s] is whitespace for
    [str.isspace], read off the UTF-8 encoding (U+0085, U+00A0, U+1680,
    U+2000..U+200A, U+2028, U+2029, U+202F, U+205F, U+3000 besides the
    one-byte ones). *)
Fixpoint all_space (s : string) : bool :=
  match s with
  | EmptyString => true
  | String c r =>
      if space1 c then all_space r
      else
        match r with
        | String d r1 =>
            if ((code c =? 194) && ((code d =? 133) || (code d =? 160)))%N
            then all_space r1
            else
              match r1 with
              | String e r2 =>
                  if ((code c =? 225) && (code d =? 154) && (code e =? 128)
                      || (code c =? 226) && (code d =? 128)
                         && ((128 <=? code e) && (code e <=? 138)
                             || (code e =? 168) || (code e =? 169)
                             || (code e =? 175))
                      || (code c =? 226) && (code d =? 129) && (code e =? 159)
                      || (code c =? 227) && (code d =? 128) && (code e =? 128))%N
                  then all_space r2
                  else false
              | EmptyString => false
              end
        | EmptyString => false
        end
  end.

(** [DataRequired] on a string field: [data and data.strip()]. *)
Definition data_required_str (s : string) : bool := negb (all_space s).

(** [DataRequired] on a [FloatField]: the data is present and truthy. *)
Definition data_required_float (x : option float) : bool :=
  match x with
  | Some v => Py.truthy v
  | None => false
  end.

(** [NumberRange(min=lo)]: the data is present, not a NaN and [>= lo]. *)
Definition number_range_min (lo : float) (x : option float) : bool :=
  match x with
  | Some v => negb (Py.isnan v) && PrimFloat.leb lo v
  | None => false
  end.

(** A [SelectField] accepts its data when it is one of the choices. *)
Definition valid_choice (choices : list string) (v : string) : bool :=
  existsb (String.eqb v) choices.

End Validators.

(* ================================================================== *)
(** ** The models and the forms *)

Record User := {
  u_id : Z;
  u_username : string;
  u_password_hash : string
}.

(** [category] is the one nullable column that the handlers read; [date]
    is always given a value by [index], in microseconds of UTC time. *)
Record Transaction := {
  t_id : Z;
  t_title : string;
  t_amount : float;
  t_type : string;
  t_date : Z;
  t_category : option string;
  t_user_id : Z
}.

Definition Gider : string := "Gider".
Definition Gelir : string := "Gelir".

Definition type_choices : list string := [Gider; Gelir].

Definition category_choices : list string :=
  ["Maaş"; "Yatırım"; "Kira"; "Gıda"; "Fatura"; "Ulaşım"; "Eğlence"; "Diğer"].

(** The data of a submitted form.  [csrf_ok] tells whether the CSRF token
    that FlaskForm adds to every form checked out. *)
Record TransactionForm := {
  tf_csrf_ok : bool;
  tf_title : string;
  tf_amount : option float;
  tf_transaction_type : string;
  tf_category : string
}.

Record RegistrationForm := {
  rf_csrf_ok : bool;
  rf_username : string;
  rf_password : string
}.

Record LoginForm := {
  lf_csrf_ok : bool;
  lf_username : string;
  lf_password : string
}.

(** [form.validate()] for each form: every validator of every field. *)
Definition validate_transaction (f : TransactionForm) : bool :=
  tf_csrf_ok f
  && Validators.data_required_str (tf_title f)
  && Validators.data_required_float (tf_amount f)
  && Validators.number_range_min 0.01%float (tf_amount f)
  && Validators.data_required_str (tf_transaction_type f)
  && Validators.valid_choice type_choices (tf_transaction_type f)
  && Validators.data_required_str (tf_category f)
  && Validators.valid_choice category_choices (tf_category f).

Definition validate_registration (f : RegistrationForm) : bool :=
  rf_csrf_ok f
  && Validators.data_required_str (rf_username f)
  && Validators.data_required_str (rf_password f).

Definition validate_login (f : LoginForm) : bool :=
  lf_csrf_ok f
  && Validators.data_required_str (lf_username f)
  && Validators.data_required_str (lf_password f).

(** [form.validate_on_submit()]: the request is a POST ([Some] form data)
    and the form validates. *)
Definition validate_on_submit {F : Type} (validate : F -> bool)
    (posted : option F) : bool :=
  match posted with
  | Some f => validate f
  | None => false
  end.

(* ================================================================== *)
(** ** The database and its queries *)

Record Db := {
  users : list User;
  transactions : list Transaction
}.

Definition empty_db : Db := {| users := []; transactions := [] |}.

(** An integer primary key without AUTOINCREMENT: one more than the
    largest key in the table, 1 in an empty table. *)
Definition next_id (ids : list Z) : Z := 1 + fold_right Z.max 0 ids.

(** [Query.first()]. *)
Definition first {A : Type} (rows : list A) : option A := hd_error rows.

(** [User.query.filter_by(username=name)]. *)
Definition users_by_username (name : string) (us : list User) : list User :=
  filter (fun u => String.eqb (u_username u) name) us.

(** [db.session.get(User, uid)]. *)
Definition get_user (uid : Z) (us : list User) : option User :=
  find (fun u => u_id u =? uid) us.

(** [Transaction.query.filter_by(user_id=uid)]. *)
Definition filter_by_user_id (uid : Z) (ts : list Transaction)
    : list Transaction :=
  filter (fun t => t_user_id t =? uid) ts.

(** [.order_by(Transaction.date.desc())], as an insertion sort; rows with
    equal dates stay in rowid order (SQL leaves their order open). *)
Fixpoint insert_by_date_desc (t : Transaction) (ts : list Transaction)
    : list Transaction :=
  match ts with
  | [] => [t]
  | h :: r =>
      if t_date h <=? t_date t then t :: h :: r
      else h :: insert_by_date_desc t r
  end.

Definition order_by_date_desc (ts : list Transaction) : list Transaction :=
  fold_right insert_by_date_desc [] ts.

(** [Query.delete()] on [filter_by(user_id=uid)]: the number of rows
    matched, and the table without them. *)
Definition delete_by_user_id (uid : Z) (ts : list Transaction)
    : Z * list Transaction :=
  (Z.of_nat (List.length (filter_by_user_id uid ts)),
   filter (fun t => negb (t_user_id t =? uid)) ts).

(* ================================================================== *)
(** ** The interpreter *)

Section Interpreter.

(** The version of CPython that runs the application; everything below
    holds for both. *)
Variable python : Py.version.

(* ================================================================== *)
(** ** The aggregates of the index page (app.py, lines 162-175) *)

Definition category_eqb (a b : option string) : bool :=
  match a, b with
  | Some x, Some y => String.eqb x y
  | None, None => true
  | _, _ => false
  end.

Definition is_income (t : Transaction) : bool := String.eqb (t_type t) Gelir.
Definition is_expense (t : Transaction) : bool := String.eqb (t_type t) Gider.

(** [sum(t.amount for t in all_transactions if t.type == 'Gelir')]. *)
Definition total_income (all_transactions : list Transaction) : float :=
  Py.builtin_sum python (map t_amount (filter is_income all_transactions)).

(** [sum(t.amount for t in all_transactions if t.type == 'Gider')]. *)
Definition total_expense (all_transactions : list Transaction) : float :=
  Py.builtin_sum python (map t_amount (filter is_expense all_transactions)).

Definition net_balance (all_transactions : list Transaction) : float :=
  (total_income all_transactions + total_expense all_transactions)%float.

(** One turn of the loop that fills [expense_by_category]. *)
Definition add_expense (d : @Py.dict (option string)) (t : Transaction)
    : @Py.dict (option string) :=
  if is_expense t then
    let category := t_category t in
    let amount := PrimFloat.abs (t_amount t) in
    Py.set category_eqb d category
      (Py.get category_eqb d category Py.zero + amount)%float
  else d.

Definition expense_by_category (all_transactions : list Transaction)
    : @Py.dict (option string) :=
  fold_left add_expense all_transactions [].

Definition chart_labels (all_transactions : list Transaction)
    : list (option string) :=
  Py.keys (expense_by_category all_transactions).

Definition chart_data (all_transactions : list Transaction) : list float :=
  map Py.round2 (Py.values (expense_by_category all_transactions)).

(** The keyword arguments that [index] hands to the template. *)
Record IndexPage := {
  page_transactions : list Transaction;
  page_total_income : float;
  page_total_expense : float;
  page_net_balance : float;
  page_chart_labels : list (option string);
  page_chart_data : list float
}.

Definition index_page (all_transactions : list Transaction) : IndexPage :=
  {| page_transactions := all_transactions;
     page_total_income := total_income all_transactions;
     page_total_expense := PrimFloat.abs (total_expense all_transactions);
     page_net_balance := net_balance all_transactions;
     page_chart_labels := chart_labels all_transactions;
     page_chart_data := chart_data all_transactions |}.

(* ================================================================== *)
(** ** The request handlers *)

(** The session cookie: the id that [login_user] stored, if any. *)
Definition Session := option Z.

Inductive Response :=
| Redirect (endpoint : string)
| RenderRegister (form : option RegistrationForm) (error : option string)
| RenderLogin (form : option LoginForm) (error : option string)
| RenderIndex (form : option TransactionForm) (page : IndexPage).

Definition duplicate_username_error : string :=
  "Bu kullanıcı adı zaten alınmış.".

Definition invalid_credentials_error : string :=
  "Geçersiz kullanıcı adı veya şifre.".

(** The user loader of the login manager. *)
Definition load_user (db : Db) (user_id : Z) : option User :=
  get_user user_id (users db).

(** [current_user]: the user that [load_user] finds for the id in the
    session; none for a session without id or with the id of no user. *)
Definition current_user (db : Db) (sess : Session) : option User :=
  match sess with
  | Some uid => load_user db uid
  | None => None
  end.

(** The listing of the index page (line 159). *)
Definition list_transactions (db : Db) (uid : Z) : list Transaction :=
  order_by_date_desc (filter_by_user_id uid (transactions db)).

(** The sign adjustment of lines 138-142. *)
Definition signed_amount (t_type : string) (amount : float) : float :=
  if String.eqb t_type Gider then (- PrimFloat.abs amount)%float else amount.

Section Handlers.

(** werkzeug.security: [generate_password_hash] draws a random salt, made
    an explicit argument here, and [check_password_hash] verifies a
    password against a stored hash. *)
Variable Salt : Type.
Variable generate_password_hash : Salt -> string -> string.
Variable check_password_hash : string -> string -> bool.

Definition set_password (u : User) (salt : Salt) (password : string) : User :=
  {| u_id := u_id u;
     u_username := u_username u;
     u_password_hash := generate_password_hash salt password |}.

Definition check_password (u : User) (password : string) : bool :=
  check_password_hash (u_password_hash u) password.

(** [/register]. *)
Definition register (db : Db) (salt : Salt) (posted : option RegistrationForm)
    : Db * Response :=
  if validate_on_submit validate_registration posted then
    match posted with
    | Some form =>
        match first (users_by_username (rf_username form) (users db)) with
        | Some _ => (db, RenderRegister posted (Some duplicate_username_error))
        | None =>
            let new_user :=
              set_password
                {| u_id := next_id (map u_id (users db));
                   u_username := rf_username form;
                   u_password_hash := "" |}
                salt (rf_password form) in
            ({| users := users db ++ [new_user];
                transactions := transactions db |},
             Redirect "login")
        end
    | None => (db, RenderRegister posted None)
    end
  else (db, RenderRegister posted None).

(** [/login]. *)
Definition login (db : Db) (sess : Session) (posted : option LoginForm)
    : Session * Response :=
  if validate_on_submit validate_login posted then
    match posted with
    | Some form =>
        match first (users_by_username (lf_username form) (users db)) with
        | Some user =>
            if check_password user (lf_password form)
            then (Some (u_id user), Redirect "index")
            else (sess, RenderLogin posted (Some invalid_credentials_error))
        | None => (sess, RenderLogin posted (Some invalid_credentials_error))
        end
    | None => (sess, RenderLogin posted None)
    end
  else (sess, RenderLogin posted None).

(** [/logout], behind [login_required]. *)
Definition logout (db : Db) (sess : Session) : Session * Response :=
  match current_user db sess with
  | Some _ => (None, Redirect "login")
  | None => (sess, Redirect "login")
  end.

(** [/reset], behind [login_required]; the count that [delete()] returns
    is dropped. *)
Definition reset_data (db : Db) (sess : Session) : Db * Response :=
  match current_user db sess with
  | Some user =>
      let '(_, remaining) := delete_by_user_id (u_id user) (transactions db) in
      ({| users := users db; transactions := remaining |}, Redirect "index")
  | None => (db, Redirect "login")
  end.

(** [/], behind [login_required]; [now] is the reading of
    [datetime.utcnow()].  A form that validates was posted and holds an
    amount, so the two inner [None] branches are never taken. *)
Definition index (db : Db) (sess : Session) (now : Z)
    (posted : option TransactionForm) : Db * Response :=
  match current_user db sess with
  | Some user =>
      if validate_on_submit validate_transaction posted then
        match posted with
        | Some form =>
            match tf_amount form with
            | Some amount =>
                let t_type := tf_transaction_type form in
                let new_transaction :=
                  {| t_id := next_id (map t_id (transactions db));
                     t_title := tf_title form;
                     t_amount := signed_amount t_type amount;
                     t_type := t_type;
                     t_date := now;
                     t_category := Some (tf_category form);
                     t_user_id := u_id user |} in
                ({| users := users db;
                    transactions := transactions db ++ [new_transaction] |},
                 Redirect "index")
            | None => (db, Redirect "index")
            end
        | None => (db, Redirect "index")
        end
      else
        (db, RenderIndex posted (index_page (list_transactions db (u_id user))))
  | None => (db, Redirect "login")
  end.

(** One request against the application. *)
Inductive Request :=
| ReqRegister (salt : Salt) (posted : option RegistrationForm)
| ReqLogin (posted : option LoginForm)
| ReqLogout
| ReqReset
| ReqIndex (now : Z) (posted : option TransactionForm).

Definition handle (db : Db) (sess : Session) (req : Request)
    : Db * Session * Response :=
  match req with
  | ReqRegister salt posted =>
      let '(db', resp) := register db salt posted in (db', sess, resp)
  | ReqLogin posted =>
      let '(sess', resp) := login db sess posted in (db, sess', resp)
  | ReqLogout =>
      let '(sess', resp) := logout db sess in (db, sess', resp)
  | ReqReset =>
      let '(db', resp) := reset_data db sess in (db', sess, resp)
  | ReqIndex now posted =>
      let '(db', resp) := index db sess now posted in (db', sess, resp)
  end.

(** A run of the application: the requests are served one after the
    other, each with the session cookie its client sends. *)
Definition serve (db : Db) (event : Session * Request) : Db :=
  fst (fst (handle db (fst event) (snd event))).

Definition run (db : Db) (trace : list (Session * Request)) : Db :=
  fold_left serve trace db.

End Handlers.

(* ================================================================== *)
(** ** Vocabulary of the statements *)

(** Newest first: no row is followed by a row with a later date. *)
Definition newest_first (a b : Transaction) : Prop := t_date b <= t_date a.

(** The rows of the ledger that user [uid] does not own. *)
Definition rows_of_others (uid : Z) (ts : list Transaction)
    : list Transaction :=
  filter (fun t => negb (t_user_id t =? uid)) ts.

(** The sign of a stored amount agrees with the type of the row: negative
    for an expense, positive for an income, and there is no third type. *)
Definition sign_matches_type (t : Transaction) : bool :=
  if is_expense t then PrimFloat.ltb (t_amount t) 0%float
  else if is_income t then PrimFloat.ltb 0%float (t_amount t)
  else false.

(** Every stored amount has the sign of its type. *)
Definition signs_ok (db : Db) : Prop :=
  Forall (fun t => sign_matches_type t = true) (transactions db).

(** The row that a valid submission stores. *)
Definition stored_row (db : Db) (user : User) (now : Z)
    (form : TransactionForm) (m : float) : Transaction :=
  {| t_id := next_id (map t_id (transactions db));
     t_title := tf_title form;
     t_amount := signed_amount (tf_transaction_type form) m;
     t_type := tf_transaction_type form;
     t_date := now;
     t_category := Some (tf_category form);
     t_user_id := u_id user |}.

(** The expenses of one category, and the sum of their magnitudes. *)
Definition expense_in (c : option string) (t : Transaction) : bool :=
  is_expense t && category_eqb (t_category t) c.

Definition magnitude (t : Transaction) : float := PrimFloat.abs (t_amount t).

Definition category_total (c : option string) (ts : list Transaction)
    : float :=
  Py.sum (map magnitude (filter (expense_in c) ts)).

(** The distinct elements of a list in the order of their first
    occurrence. *)
Fixpoint first_seen (cs : list (option string)) : list (option string) :=
  match cs with
  | [] => []
  | c :: r => c :: filter (fun c' => negb (category_eqb c c')) (first_seen r)
  end.

(** How the keys of a dict grow when a key is assigned. *)
Definition push_new (ks : list (option string)) (c : option string)
    : list (option string) :=
  if existsb (category_eqb c) ks then ks else (ks ++ [c])%list.

(** The values of the breakdown add up to the total expense of the page:
    the two floats compare equal, as with Python's [==]. *)
Definition breakdown_adds_up (all_transactions : list Transaction) : Prop :=
  PrimFloat.eqb
    (Py.sum (Py.values (expense_by_category all_transactions)))
    (page_total_expense (index_page all_transactions))
  = true.

(* ================================================================== *)
(** ** Vocabulary of the further properties *)

(** A stored row as the form lets it in: a type and a category among the
    choices, a title that is not blank, a magnitude of at least 0.01. *)
Definition row_well_formed (t : Transaction) : bool :=
  Validators.valid_choice type_choices (t_type t)
  && match t_category t with
     | Some c => Validators.valid_choice category_choices c
     | None => false
     end
  && Validators.data_required_str (t_title t)
  && PrimFloat.leb 0.01%float (PrimFloat.abs (t_amount t)).

(** The owner of a row is a row of the user table. *)
Definition owner_exists (db : Db) (t : Transaction) : Prop :=
  exists u, In u (users db) /\ u_id u = t_user_id t.

(** The keys of the two tables are pairwise distinct, and every row of the
    ledger has an owner. *)
Definition keys_ok (db : Db) : Prop :=
  NoDup (map u_id (users db))
  /\ NoDup (map t_id (transactions db))
  /\ Forall (owner_exists db) (transactions db).

(** A request that does not carry the session id [uid]. *)
Definition not_from (uid : Z) (sess : Session) : Prop := sess <> Some uid.

(** A float that is a zero of positive sign, a positive finite number or
    the positive infinity; and the mirror image of it. *)
Definition sf_not_negative (x : spec_float) : Prop :=
  match x with
  | S754_zero false | S754_infinity false | S754_finite false _ _ => True
  | _ => False
  end.

Definition sf_not_positive (x : spec_float) : Prop :=
  match x with
  | S754_zero _ | S754_infinity true | S754_finite true _ _ => True
  | _ => False
  end.

(* ================================================================== *)
(** ** Additions that are not rounded *)

(** The value of a finite binary64 number is an integer multiple of
    2^-1074; [exact_value] gives that integer, and nothing for an infinity
    or a NaN. *)
Definition exact_value (x : float) : option Z :=
  match Prim2SF x with
  | S754_zero _ => Some 0
  | S754_finite s m e => Some (cond_Zopp s (Z.shiftl (Zpos m) (e + 1074)))
  | _ => None
  end.

Definition units (x : float) : Z :=
  match exact_value x with
  | Some v => v
  | None => 0
  end.

Definition units_sum (xs : list float) : Z :=
  fold_right (fun x s => units x + s) 0 xs.

(** The float addition [x + y] is not rounded. *)
Definition exact_add (x y : float) : bool :=
  match exact_value x, exact_value y, exact_value (x + y)%float with
  | Some a, Some b, Some c => c =? a + b
  | _, _, _ => false
  end.

(** No addition of the left-to-right sum of [xs] onto [acc] is rounded. *)
Fixpoint exact_sum_from (acc : float) (xs : list float) : bool :=
  match xs with
  | [] => true
  | x :: r => exact_add acc x && exact_sum_from (acc + x)%float r
  end.

(** No addition of the loop that fills [expense_by_category] from the
    dict [d] is rounded. *)
Fixpoint exact_loop (d : @Py.dict (option string)) (ts : list Transaction)
    : bool :=
  match ts with
  | [] => true
  | t :: r =>
      (if is_expense t
       then exact_add (Py.get category_eqb d (t_category t) Py.zero)
                      (magnitude t)
       else true)
      && exact_loop (add_expense d t) r
  end.

(** Nothing is rounded in [sum(xs)]: no addition onto the running sum
    is, and from 3.12 on the compensation term, which collects what the
    additions rounded off, ends as zero. *)
Definition exact_sum (xs : list float) : bool :=
  exact_sum_from Py.zero xs
  && match python with
     | Py.UpTo311 => true
     | Py.From312 => PrimFloat.eqb (Py.compensation xs) 0%float
     end.

(** Nothing is rounded: not in the [sum] behind the total expense, not
    in the loop over the categories, and not in a left-to-right sum of the
    values of the dict. *)
Definition additions_exact (all_transactions : list Transaction) : bool :=
  exact_sum (map t_amount (filter is_expense all_transactions))
  && exact_loop [] all_transactions
  && exact_sum_from Py.zero
       (Py.values (expense_by_category all_transactions)).

(* ================================================================== *)
(** ** Sample data *)

(** A stand-in for werkzeug's pair of functions, used to run the handlers
    on concrete requests: the salt is one character, and the text after
    the seven characters of [demo$c$] is compared with the password. *)
Definition demo_generate_password_hash (salt : ascii) (password : string)
    : string :=
  "demo$" ++ String salt ("$" ++ password).

Definition demo_check_password_hash (pwhash password : string) : bool :=
  match pwhash with
  | String _ (String _ (String _ (String _ (String _ (String _ (String _ d))))))
      => String.eqb d password
  | _ => false
  end.

(** A small database: two users, and three rows in the ledger. *)
Definition alice : User :=
  {| u_id := 1; u_username := "alice";
     u_password_hash := demo_generate_password_hash "a" "wonderland" |}.

Definition bob : User :=
  {| u_id := 2; u_username := "bob";
     u_password_hash := demo_generate_password_hash "b" "builder" |}.

Definition salary : Transaction :=
  {| t_id := 1; t_title := "maas"; t_amount := 1000%float; t_type := Gelir;
     t_date := 10; t_category := Some "Maaş"; t_user_id := 1 |}.

Definition groceries : Transaction :=
  {| t_id := 2; t_title := "market"; t_amount := (-300)%float; t_type := Gider;
     t_date := 20; t_category := Some "Gıda"; t_user_id := 1 |}.

Definition rent : Transaction :=
  {| t_id := 3; t_title := "kira"; t_amount := (-50)%float; t_type := Gider;
     t_date := 15; t_category := Some "Kira"; t_user_id := 2 |}.

Definition demo_db : Db :=
  {| users := [alice; bob]; transactions := [salary; groceries; rent] |}.

(** A busier ledger for alice: two incomes, and three expenses in two
    categories, none of them a multiple of another; every sum over it is
    exact in binary64. *)
Definition dividend : Transaction :=
  {| t_id := 4; t_title := "temettu"; t_amount := 250.5%float;
     t_type := Gelir; t_date := 40; t_category := Some "Yatırım";
     t_user_id := 1 |}.

Definition utilities : Transaction :=
  {| t_id := 5; t_title := "elektrik"; t_amount := (-250.25)%float;
     t_type := Gider; t_date := 30; t_category := Some "Fatura";
     t_user_id := 1 |}.

Definition bakery : Transaction :=
  {| t_id := 6; t_title := "firin"; t_amount := (-27.5)%float;
     t_type := Gider; t_date := 50; t_category := Some "Gıda";
     t_user_id := 1 |}.

Definition busy_db : Db :=
  {| users := [alice; bob];
     transactions := [salary; groceries; rent; dividend; utilities; bakery] |}.

(** Alice's listing of it, newest first. *)
Definition busy_ledger : list Transaction :=
  [bakery; dividend; utilities; groceries; salary].

(** Two submissions of the transaction form: an income of 1000 and an
    expense of 300 in the category Gıda. *)
Definition income_form (title category : string) : TransactionForm :=
  {| tf_csrf_ok := true; tf_title := title; tf_amount := Some 1000%float;
     tf_transaction_type := Gelir; tf_category := category |}.

Definition expense_form (title : string) : TransactionForm :=
  {| tf_csrf_ok := true; tf_title := title; tf_amount := Some 300%float;
     tf_transaction_type := Gider; tf_category := "Gıda" |}.


(** Requests against the small database: a registration under a new
    name, one under a name that is taken, and two logins. *)
Definition carol_registration : RegistrationForm :=
  {| rf_csrf_ok := true; rf_username := "carol"; rf_password := "secret" |}.

Definition alice_registration : RegistrationForm :=
  {| rf_csrf_ok := true; rf_username := "alice"; rf_password := "other" |}.

Definition carol_login : LoginForm :=
  {| lf_csrf_ok := true; lf_username := "carol"; lf_password := "secret" |}.

Definition alice_wrong_login : LoginForm :=
  {| lf_csrf_ok := true; lf_username := "alice"; lf_password := "oops" |}.

(** Five expenses that alice submits one after the other: 1 and 1 and
    2^53 in Gıda, then 1 and 1 in Kira.  Each passes the validation of
    the form. *)
Definition expense_of (amount : float) (category : string)
    : TransactionForm :=
  {| tf_csrf_ok := true; tf_title := "x"; tf_amount := Some amount;
     tf_transaction_type := Gider; tf_category := category |}.

Definition rounding_db : Db :=
  run ascii demo_generate_password_hash demo_check_password_hash
    {| users := [alice]; transactions := [] |}
    [(Some 1, ReqIndex ascii 1 (Some (expense_of 1%float "Gıda")));
     (Some 1, ReqIndex ascii 2 (Some (expense_of 1%float "Gıda")));
     (Some 1,
      ReqIndex ascii 3 (Some (expense_of 9007199254740992%float "Gıda")));
     (Some 1, ReqIndex ascii 4 (Some (expense_of 1%float "Kira")));
     (Some 1, ReqIndex ascii 5 (Some (expense_of 1%float "Kira")))].

(** Alice's listing after these requests, newest first. *)
Definition rounding_ledger : list Transaction :=
  list_transactions rounding_db 1.

(* ================================================================== *)
(** * Properties *)

(* ------------------------------------------------------------------ *)
(** ** The listing: a sorted permutation of the owner's rows *)

Lemma insert_by_date_desc_perm t ts :
  Permutation (insert_by_date_desc t ts) (t :: ts).
Proof.
  induction ts as [|h r IH]; simpl.
  - apply Permutation_refl.
  - destruct (t_date h <=? t_date t).
    + apply Permutation_refl.
    + apply perm_trans with (h :: t :: r).
      * now apply perm_skip.
      * apply perm_swap.
Qed.

Lemma order_by_date_desc_perm ts :
  Permutation (order_by_date_desc ts) ts.
Proof.
  induction ts as [|t r IH]; simpl.
  - apply perm_nil.
  - apply perm_trans with (t :: order_by_date_desc r).
    + apply insert_by_date_desc_perm.
    + now apply perm_skip.
Qed.

Lemma insert_by_date_desc_sorted t ts :
  StronglySorted newest_first ts ->
  StronglySorted newest_first (insert_by_date_desc t ts).
Proof.
  induction 1 as [|h r Hr IH Hh]; simpl.
  - repeat constructor.
  - destruct (t_date h <=? t_date t) eqn:E.
    + apply Z.leb_le in E.
      constructor; [now constructor|].
      constructor; [exact E|].
      rewrite Forall_forall in Hh |- *.
      intros x Hx. specialize (Hh x Hx). unfold newest_first in *. lia.
    + apply Z.leb_gt in E.
      constructor; [exact IH|].
      rewrite Forall_forall in Hh |- *.
      intros x Hx.
      apply (Permutation_in _ (insert_by_date_desc_perm t r)) in Hx.
      destruct Hx as [<-|Hx]; [unfold newest_first; lia | now apply Hh].
Qed.

Lemma order_by_date_desc_sorted ts :
  StronglySorted newest_first (order_by_date_desc ts).
Proof.
  induction ts as [|t r IH]; simpl.
  - constructor.
  - now apply insert_by_date_desc_sorted.
Qed.

Lemma in_list_transactions db uid t :
  In t (list_transactions db uid) <->
  In t (transactions db) /\ t_user_id t = uid.
Proof.
  unfold list_transactions, filter_by_user_id. split.
  - intros H. apply (Permutation_in _ (order_by_date_desc_perm _)) in H.
    apply filter_In in H. now rewrite Z.eqb_eq in H.
  - intros [H1 H2].
    apply (Permutation_in _ (Permutation_sym (order_by_date_desc_perm _))).
    apply filter_In. now rewrite Z.eqb_eq.
Qed.

Lemma filter_by_user_id_app uid ts ts' :
  filter_by_user_id uid (ts ++ ts')
  = (filter_by_user_id uid ts ++ filter_by_user_id uid ts')%list.
Proof. apply filter_app. Qed.

Lemma filter_by_user_id_others uid v ts :
  v <> uid ->
  filter_by_user_id v (rows_of_others uid ts) = filter_by_user_id v ts.
Proof.
  intros Hv. unfold filter_by_user_id, rows_of_others.
  induction ts as [|t r IH]; simpl; [reflexivity|].
  destruct (t_user_id t =? uid) eqn:E1; simpl.
  - apply Z.eqb_eq in E1.
    destruct (t_user_id t =? v) eqn:E2; [|exact IH].
    apply Z.eqb_eq in E2. congruence.
  - now rewrite IH.
Qed.

Lemma filter_by_user_id_own uid ts :
  filter_by_user_id uid (rows_of_others uid ts) = [].
Proof.
  unfold filter_by_user_id, rows_of_others.
  induction ts as [|t r IH]; simpl; [reflexivity|].
  destruct (t_user_id t =? uid) eqn:E; simpl; [exact IH|].
  now rewrite E.
Qed.

Lemma rows_of_others_idem uid ts :
  rows_of_others uid (rows_of_others uid ts) = rows_of_others uid ts.
Proof.
  unfold rows_of_others.
  induction ts as [|t r IH]; simpl; [reflexivity|].
  destruct (t_user_id t =? uid) eqn:E; simpl; [exact IH|].
  now rewrite E, IH.
Qed.

Lemma rows_of_others_all uid ts :
  filter_by_user_id uid ts = [] -> rows_of_others uid ts = ts.
Proof.
  unfold filter_by_user_id, rows_of_others.
  induction ts as [|t r IH]; simpl; [reflexivity|].
  destruct (t_user_id t =? uid); simpl; [discriminate|].
  intros H. now rewrite IH.
Qed.

Lemma rows_of_others_app uid ts t :
  t_user_id t = uid ->
  rows_of_others uid (ts ++ [t]) = rows_of_others uid ts.
Proof.
  intros H. unfold rows_of_others. rewrite filter_app. simpl.
  rewrite H, Z.eqb_refl. simpl. apply app_nil_r.
Qed.

(** What [index] does for a logged-in user: a valid submission appends
    one row owned by that user, anything else renders the listing. *)
Lemma index_logged_in db sess now posted user :
  current_user db sess = Some user ->
  (exists t,
      index db sess now posted
      = ({| users := users db; transactions := transactions db ++ [t] |},
         Redirect "index")
      /\ t_user_id t = u_id user)
  \/ index db sess now posted
     = (db, RenderIndex posted (index_page (list_transactions db (u_id user)))).
Proof.
  intros Hu. unfold index. rewrite Hu.
  destruct posted as [form|]; simpl; [|now right].
  destruct (validate_transaction form) eqn:V; [|now right].
  destruct (tf_amount form) as [m|] eqn:A.
  - left. eexists. split; [reflexivity|reflexivity].
  - exfalso. unfold validate_transaction in V. rewrite A in V. simpl in V.
    rewrite !andb_false_r in V. simpl in V.
    rewrite ?andb_false_r in V. discriminate.
Qed.

(* ------------------------------------------------------------------ *)
(** ** C9: the listing *)


(* ------------------------------------------------------------------ *)
(** ** C1: every read and every mutation stays with the owner *)

(** C1.  Under the session of user A, for every other user B: a listing
    that [index] renders holds only stored rows whose [user_id] is A's
    id, so none owned by B; the bulk delete of [reset_data] removes no
    row of B; and the rows that A does not own, those of B among them,
    are the same before and after [reset_data] and before and after
    [index], whatever was posted. *)
Theorem C1_ledger_scoped_to_owner db sess now posted user_a b :
  current_user db sess = Some user_a ->
  b <> u_id user_a ->
  (forall form page t,
      snd (index db sess now posted) = RenderIndex form page ->
      In t (page_transactions page) ->
      In t (transactions db) /\ t_user_id t = u_id user_a /\ t_user_id t <> b)
  /\ (forall t, In t (list_transactions db (u_id user_a)) -> t_user_id t <> b)
  /\ filter_by_user_id b (transactions (fst (reset_data db sess)))
     = filter_by_user_id b (transactions db)
  /\ rows_of_others (u_id user_a) (transactions (fst (reset_data db sess)))
     = rows_of_others (u_id user_a) (transactions db)
  /\ filter_by_user_id b (transactions (fst (index db sess now posted)))
     = filter_by_user_id b (transactions db)
  /\ rows_of_others (u_id user_a)
       (transactions (fst (index db sess now posted)))
     = rows_of_others (u_id user_a) (transactions db).
Proof.
  intros Hu Hb.
  assert (Hreset : transactions (fst (reset_data db sess))
                   = rows_of_others (u_id user_a) (transactions db)).
  { unfold reset_data. rewrite Hu. reflexivity. }
  assert (Hlist : forall t, In t (list_transactions db (u_id user_a)) ->
                    In t (transactions db) /\ t_user_id t = u_id user_a
                    /\ t_user_id t <> b).
  { intros t Hin. apply in_list_transactions in Hin.
    destruct Hin as [Hin Hown]. split; [exact Hin|]. lia. }
  split; [|split; [|split; [|split]]].
  - intros form page t Hr Hin.
    destruct (index_logged_in db sess now posted user_a Hu)
      as [[t' [Hi _]]|Hi]; rewrite Hi in Hr; simpl in Hr; [discriminate|].
    injection Hr as _ <-. now apply Hlist.
  - intros t Hin. now apply Hlist.
  - rewrite Hreset. now apply filter_by_user_id_others.
  - rewrite Hreset. apply rows_of_others_idem.
  - destruct (index_logged_in db sess now posted user_a Hu)
      as [[t [Hi Ht]]|Hi]; rewrite Hi; simpl; [|now split].
    split; [|now apply rows_of_others_app].
    rewrite filter_by_user_id_app. simpl.
    replace (t_user_id t =? b) with false; [apply app_nil_r|].
    symmetry. apply Z.eqb_neq. lia.
Qed.

(* ------------------------------------------------------------------ *)
(** ** C7: the reset *)

(** C7.  For a logged-in user U, [reset_data] answers with the redirect to
    the index page; afterwards U's listing is empty, the user table and
    every row of every other user are as before (so is each other user's
    listing); and when U owns no row, [delete()] counts 0 rows and the
    database is unchanged, with the same redirect and no error. *)
Theorem C7_reset_empties_owner_only db sess user :
  current_user db sess = Some user ->
  snd (reset_data db sess) = Redirect "index"
  /\ list_transactions (fst (reset_data db sess)) (u_id user) = []
  /\ users (fst (reset_data db sess)) = users db
  /\ rows_of_others (u_id user) (transactions (fst (reset_data db sess)))
     = rows_of_others (u_id user) (transactions db)
  /\ (forall v, v <> u_id user ->
        filter_by_user_id v (transactions (fst (reset_data db sess)))
        = filter_by_user_id v (transactions db)
        /\ list_transactions (fst (reset_data db sess)) v
           = list_transactions db v)
  /\ fst (delete_by_user_id (u_id user) (transactions db))
     = Z.of_nat (List.length (filter_by_user_id (u_id user) (transactions db)))
  /\ (filter_by_user_id (u_id user) (transactions db) = [] ->
        fst (delete_by_user_id (u_id user) (transactions db)) = 0
        /\ reset_data db sess = (db, Redirect "index")).
Proof.
  intros Hu.
  assert (Hreset : reset_data db sess
                   = ({| users := users db;
                         transactions :=
                           rows_of_others (u_id user) (transactions db) |},
                      Redirect "index")).
  { unfold reset_data. rewrite Hu. reflexivity. }
  rewrite Hreset. simpl. repeat split.
  - unfold list_transactions. simpl.
    now rewrite filter_by_user_id_own.
  - apply rows_of_others_idem.
  - now apply filter_by_user_id_others.
  - unfold list_transactions. simpl.
    now rewrite filter_by_user_id_others.
  - now rewrite H.
  - rewrite (rows_of_others_all _ _ H). now destruct db.
Qed.

(* ------------------------------------------------------------------ *)
(** ** Facts about binary64 amounts *)

Local Open Scope float_scope.

Lemma positive_float_cases m :
  (0 <? m) = true ->
  Prim2SF m = S754_infinity false
  \/ exists mant e, Prim2SF m = S754_finite false mant e.
Proof.
  rewrite ltb_spec. change (Prim2SF 0) with (S754_zero false).
  destruct (Prim2SF m) as [s|s| |s mant e]; simpl; try discriminate.
  - destruct s; [discriminate|]. now left.
  - destruct s; [discriminate|]. right. now exists mant, e.
Qed.

Lemma abs_of_positive m : (0 <? m) = true -> abs m = m.
Proof.
  intros H. apply Prim2SF_inj. rewrite abs_spec.
  destruct (positive_float_cases m H) as [E|[mant [e E]]];
    now rewrite E.
Qed.

Lemma opp_of_positive m : (0 <? m) = true -> (- m <? 0) = true.
Proof.
  intros H. rewrite ltb_spec, opp_spec.
  change (Prim2SF 0) with (S754_zero false).
  destruct (positive_float_cases m H) as [E|[mant [e E]]];
    now rewrite E.
Qed.

Lemma number_range_positive m :
  Validators.number_range_min 0.01 (Some m) = true -> (0 <? m) = true.
Proof.
  unfold Validators.number_range_min. intros H.
  apply andb_true_iff in H. destruct H as [_ H].
  rewrite leb_spec in H. rewrite ltb_spec.
  change (Prim2SF 0) with (S754_zero false).
  change (Prim2SF 0.01) with (S754_finite false 5764607523034235 (-59)) in H.
  destruct (Prim2SF m) as [s|s| |s mant e]; simpl in *; try discriminate.
  - now destruct s.
  - now destruct s.
Qed.

Lemma signed_amount_expense m :
  (0 <? m) = true -> signed_amount Gider m = - m.
Proof.
  intros H. unfold signed_amount. simpl. now rewrite abs_of_positive.
Qed.

Local Close Scope float_scope.

(* ------------------------------------------------------------------ *)
(** ** C2: the sign of a stored amount *)

Lemma valid_type_cases ty :
  Validators.valid_choice type_choices ty = true -> ty = Gider \/ ty = Gelir.
Proof.
  unfold Validators.valid_choice, type_choices. simpl.
  destruct (String.eqb ty Gider) eqn:E1.
  - apply String.eqb_eq in E1. now left.
  - destruct (String.eqb ty Gelir) eqn:E2; [|discriminate].
    apply String.eqb_eq in E2. now right.
Qed.

Lemma validate_transaction_inv form :
  validate_transaction form = true ->
  exists m, tf_amount form = Some m
            /\ PrimFloat.ltb 0%float m = true
            /\ (tf_transaction_type form = Gider
                \/ tf_transaction_type form = Gelir).
Proof.
  unfold validate_transaction. intros V.
  repeat (apply andb_true_iff in V; destruct V as [V ?]).
  destruct (tf_amount form) as [m|]; [|discriminate].
  exists m. split; [reflexivity|]. split.
  - now apply number_range_positive.
  - now apply valid_type_cases.
Qed.

Lemma index_valid_post db sess now form user m :
  current_user db sess = Some user ->
  validate_transaction form = true ->
  tf_amount form = Some m ->
  index db sess now (Some form)
  = ({| users := users db;
        transactions := transactions db ++ [stored_row db user now form m] |},
     Redirect "index").
Proof.
  intros Hu V A. unfold index. rewrite Hu. simpl. now rewrite V, A.
Qed.

Lemma stored_row_sign db user now form m :
  validate_transaction form = true ->
  tf_amount form = Some m ->
  sign_matches_type (stored_row db user now form m) = true.
Proof.
  intros V A. destruct (validate_transaction_inv form V) as [m' [A' [P T]]].
  assert (m' = m) by congruence. subst m'.
  unfold sign_matches_type, is_expense, is_income, stored_row. simpl.
  destruct T as [-> | ->]; simpl.
  - rewrite signed_amount_expense by exact P. now apply opp_of_positive.
  - exact P.
Qed.

Section RunInvariants.

Variable Salt : Type.
Variable generate_password_hash : Salt -> string -> string.
Variable check_password_hash : string -> string -> bool.

Abbreviation serve' := (serve Salt generate_password_hash check_password_hash).
Abbreviation run' := (run Salt generate_password_hash check_password_hash).

Lemma register_transactions db salt posted :
  transactions (fst (register Salt generate_password_hash db salt posted))
  = transactions db.
Proof.
  unfold register.
  destruct (validate_on_submit validate_registration posted); [|reflexivity].
  destruct posted as [form|]; [|reflexivity].
  destruct (first (users_by_username (rf_username form) (users db)));
    reflexivity.
Qed.

Lemma serve_keeps_signs db event :
  signs_ok db -> signs_ok (serve' db event).
Proof.
  unfold signs_ok, serve, handle. intros H.
  destruct event as [sess [salt posted|posted| | |now posted]]; simpl.
  - destruct (register _ _ db salt posted) as [db' resp] eqn:E. simpl.
    replace db' with (fst (register Salt generate_password_hash db salt posted))
      by now rewrite E.
    now rewrite register_transactions.
  - now destruct (login _ db sess posted).
  - now destruct (logout db sess).
  - unfold reset_data. destruct (current_user db sess); [|exact H].
    simpl. clear -H. induction H as [|t r Ht Hr IH]; simpl; [constructor|].
    destruct (negb (t_user_id t =? u_id u)); [now constructor|exact IH].
  - destruct (index db sess now posted) as [db' resp] eqn:E. simpl.
    unfold index in E.
    destruct (current_user db sess) as [user|];
      [|inversion E; subst; exact H].
    destruct posted as [form|]; simpl in E; [|inversion E; subst; exact H].
    destruct (validate_transaction form) eqn:V;
      [|inversion E; subst; exact H].
    destruct (tf_amount form) as [m|] eqn:A; [|inversion E; subst; exact H].
    inversion E; subst; simpl.
    apply Forall_app. split; [exact H|].
    constructor; [|constructor].
    exact (stored_row_sign db user now form m V A).
Qed.

Lemma run_keeps_signs trace : forall db,
  signs_ok db -> signs_ok (run' db trace).
Proof.
  unfold run.
  induction trace as [|event rest IH]; intros db H; simpl; [exact H|].
  apply IH. now apply serve_keeps_signs.
Qed.

End RunInvariants.

(** C2.  (1) For an input magnitude [m > 0] the sign adjustment yields
    [-m] for type Gider (expense) and [m] for type Gelir (income).
    (2) When a logged-in user submits a form that validates, the form's
    amount is some [m > 0], its type is Gider or Gelir, and [index]
    appends exactly one row, owned by that user, of that type, whose
    amount is [-m] for Gider and [m] for Gelir.  (3) Consequently, in
    every database that a run of requests reaches from the empty one, the
    sign of every stored amount matches the type of its row. *)
Theorem C2_stored_amount_sign_matches_type :
  (forall m, PrimFloat.ltb 0%float m = true ->
     signed_amount Gider m = PrimFloat.opp m
     /\ signed_amount Gelir m = m
     /\ PrimFloat.ltb (PrimFloat.opp m) 0%float = true)
  /\ (forall db sess now form user,
        current_user db sess = Some user ->
        validate_transaction form = true ->
        exists m t,
          tf_amount form = Some m
          /\ PrimFloat.ltb 0%float m = true
          /\ index db sess now (Some form)
             = ({| users := users db;
                   transactions := transactions db ++ [t] |},
                Redirect "index")
          /\ t_user_id t = u_id user
          /\ t_type t = tf_transaction_type form
          /\ (t_type t = Gider /\ t_amount t = PrimFloat.opp m
              \/ t_type t = Gelir /\ t_amount t = m)
          /\ sign_matches_type t = true)
  /\ (forall Salt generate_password_hash check_password_hash trace,
        signs_ok
          (run Salt generate_password_hash check_password_hash
               empty_db trace)).
Proof.
  split; [|split].
  - intros m P. split; [|split].
    + now apply signed_amount_expense.
    + reflexivity.
    + now apply opp_of_positive.
  - intros db sess now form user Hu V.
    destruct (validate_transaction_inv form V) as [m [A [P T]]].
    exists m, (stored_row db user now form m).
    split; [exact A|]. split; [exact P|].
    split; [now apply index_valid_post|].
    split; [reflexivity|]. split; [reflexivity|].
    split.
    + unfold stored_row; simpl. destruct T as [T|T]; rewrite T.
      * left. split; [reflexivity|]. now apply signed_amount_expense.
      * right. split; reflexivity.
    + now apply stored_row_sign.
  - intros Salt g c trace. apply run_keeps_signs. constructor.
Qed.

(* ------------------------------------------------------------------ *)
(** ** Sums in which nothing is rounded *)

Lemma exact_add_value x y :
  exact_add x y = true ->
  exists a b,
    exact_value x = Some a /\ exact_value y = Some b
    /\ exact_value (x + y)%float = Some (a + b).
Proof.
  unfold exact_add.
  destruct (exact_value x) as [a|]; [|discriminate].
  destruct (exact_value y) as [b|]; [|discriminate].
  destruct (exact_value (x + y)%float) as [c|]; [|discriminate].
  intros H. apply Z.eqb_eq in H. subst c. now exists a, b.
Qed.

Lemma units_of_value x v : exact_value x = Some v -> units x = v.
Proof. unfold units. now intros ->. Qed.

Lemma exact_sum_from_value xs : forall acc a,
  exact_value acc = Some a ->
  exact_sum_from acc xs = true ->
  exact_value (fold_left PrimFloat.add xs acc) = Some (a + units_sum xs).
Proof.
  induction xs as [|x r IH]; intros acc a Ha H; simpl in *.
  - now rewrite Z.add_0_r.
  - apply andb_true_iff in H. destruct H as [H1 H2].
    destruct (exact_add_value _ _ H1) as [a' [b [Ea [Eb Ec]]]].
    assert (a' = a) by congruence. subst a'.
    rewrite (IH _ _ Ec H2), (units_of_value _ _ Eb).
    f_equal. lia.
Qed.

Lemma exact_value_abs x :
  exact_value (PrimFloat.abs x) = option_map Z.abs (exact_value x).
Proof.
  unfold exact_value. rewrite abs_spec.
  destruct (Prim2SF x) as [s|s| |s m e]; simpl; try reflexivity.
  f_equal.
  assert (0 <= Z.shiftl (Z.pos m) (e + 1074)).
  { apply Z.shiftl_nonneg. lia. }
  destruct s; simpl; lia.
Qed.

Lemma units_abs x : units (PrimFloat.abs x) = Z.abs (units x).
Proof.
  unfold units. rewrite exact_value_abs.
  now destruct (exact_value x).
Qed.

Lemma builtin_sum_plain xs : Py.builtin_sum Py.UpTo311 xs = Py.sum xs.
Proof. now destruct xs. Qed.

Lemma fold_compensate_running_sum rest : forall f c,
  fst (fold_left Py.compensate rest (f, c)) = fold_left PrimFloat.add rest f.
Proof.
  induction rest as [|x r IH]; intros f c; simpl; [reflexivity|].
  apply IH.
Qed.

Lemma finish_without_compensation state :
  PrimFloat.eqb (snd state) 0%float = true -> Py.finish state = fst state.
Proof. destruct state as [f c]. simpl. now intros ->. Qed.

(** When nothing is rounded, [sum] returns a float whose value is the
    sum of the values, on either interpreter. *)
Lemma exact_sum_value xs :
  exact_sum xs = true ->
  exact_value (Py.builtin_sum python xs) = Some (units_sum xs).
Proof.
  unfold exact_sum. intros H. apply andb_true_iff in H.
  destruct H as [He Hc].
  assert (Z0 : exact_value Py.zero = Some 0) by reflexivity.
  pose proof (exact_sum_from_value xs Py.zero 0 Z0 He) as Hv.
  destruct xs as [|x rest]; [reflexivity|].
  simpl in Hv. unfold Py.builtin_sum.
  destruct python.
  - exact Hv.
  - rewrite (finish_without_compensation _ Hc).
    now rewrite fold_compensate_running_sum.
Qed.

(* ------------------------------------------------------------------ *)
(** ** C3: the totals of the index page *)

Lemma current_user_users db db' sess :
  users db' = users db -> current_user db' sess = current_user db sess.
Proof. unfold current_user, load_user. now intros ->. Qed.

(** C3.  On either interpreter: (1) for a logged-in user the index page
    is rendered from the user's listing with total income [sum] of the
    amounts of the Gelir rows, total expense the absolute value of [sum]
    of the amounts of the Gider rows, and net balance the signed float
    sum of the two sums.  (2) These sums are sums: whenever nothing is
    rounded in them, the total income has exactly the value of the sum of
    the income amounts, the reported total expense the magnitude of the
    sum of the expense amounts, and the net balance, when its one
    addition is not rounded either, the value of the sum of all of them.
    (3) When a user without rows adds an income of 1000 and then an
    expense of 300 in Gıda, whatever the titles and the clock readings,
    the page shows net balance 700, total expense 300, total income 1000
    and the chart entry Gıda = 300. *)
Theorem C3_totals_of_the_index_page :
  (forall db sess now user,
      current_user db sess = Some user ->
      exists page,
        index db sess now None = (db, RenderIndex None page)
        /\ page_transactions page = list_transactions db (u_id user)
        /\ page_total_income page
           = Py.builtin_sum python
               (map t_amount
                  (filter is_income (list_transactions db (u_id user))))
        /\ page_total_expense page
           = PrimFloat.abs
               (Py.builtin_sum python
                  (map t_amount
                     (filter is_expense
                             (list_transactions db (u_id user)))))
        /\ page_net_balance page
           = PrimFloat.add
               (Py.builtin_sum python
                  (map t_amount
                     (filter is_income
                             (list_transactions db (u_id user)))))
               (Py.builtin_sum python
                  (map t_amount
                     (filter is_expense
                             (list_transactions db (u_id user))))))
  /\ (forall all_transactions,
        exact_sum (map t_amount (filter is_income all_transactions)) = true ->
        exact_sum (map t_amount (filter is_expense all_transactions)) = true ->
        exact_value (page_total_income (index_page all_transactions))
        = Some (units_sum
                  (map t_amount (filter is_income all_transactions)))
        /\ exact_value (page_total_expense (index_page all_transactions))
           = Some (Z.abs
                     (units_sum
                        (map t_amount
                             (filter is_expense all_transactions))))
        /\ (exact_add (total_income all_transactions)
                      (total_expense all_transactions) = true ->
            exact_value (page_net_balance (index_page all_transactions))
            = Some (units_sum
                      (map t_amount (filter is_income all_transactions))
                    + units_sum
                        (map t_amount
                             (filter is_expense all_transactions)))))
  /\ (forall db sess user title1 category1 title2 now1 now2 now3,
        current_user db sess = Some user ->
        filter_by_user_id (u_id user) (transactions db) = [] ->
        validate_transaction (income_form title1 category1) = true ->
        validate_transaction (expense_form title2) = true ->
        let db1 :=
          fst (index db sess now1 (Some (income_form title1 category1))) in
        let db2 := fst (index db1 sess now2 (Some (expense_form title2))) in
        exists page,
          index db2 sess now3 None = (db2, RenderIndex None page)
          /\ page_net_balance page = 700%float
          /\ page_total_expense page = 300%float
          /\ page_total_income page = 1000%float
          /\ page_chart_labels page = [Some "Gıda"]
          /\ page_chart_data page = [300%float]).
Proof.
  split; [|split].
  - intros db sess now user Hu.
    exists (index_page (list_transactions db (u_id user))).
    split; [unfold index; now rewrite Hu|].
    repeat split.
  - intros all_transactions Hi He.
    pose proof (exact_sum_value _ Hi) as Vi.
    pose proof (exact_sum_value _ He) as Ve.
    split; [exact Vi|]. split.
    + simpl. rewrite exact_value_abs. unfold total_expense.
      now rewrite Ve.
    + intros Hn. simpl. unfold net_balance.
      destruct (exact_add_value _ _ Hn) as [a [b [Ea [Eb Ec]]]].
      rewrite Ec. unfold total_income in Ea. unfold total_expense in Eb.
      congruence.
  - intros db sess user title1 category1 title2 now1 now2 now3 Hu Hnone V1 V2
           db1 db2.
    assert (E1 : db1 = {| users := users db;
                          transactions := transactions db
                            ++ [stored_row db user now1
                                  (income_form title1 category1) 1000%float] |}).
    { unfold db1. now rewrite (index_valid_post db sess now1 _ user _ Hu V1 eq_refl). }
    assert (Hu1 : current_user db1 sess = Some user).
    { rewrite <- Hu. apply current_user_users. now rewrite E1. }
    assert (E2 : db2 = {| users := users db1;
                          transactions := transactions db1
                            ++ [stored_row db1 user now2
                                  (expense_form title2) 300%float] |}).
    { unfold db2. now rewrite (index_valid_post db1 sess now2 _ user _ Hu1 V2 eq_refl). }
    assert (Hu2 : current_user db2 sess = Some user).
    { rewrite <- Hu1. apply current_user_users. now rewrite E2. }
    exists (index_page (list_transactions db2 (u_id user))).
    split; [unfold index; now rewrite Hu2|].
    assert (L : filter_by_user_id (u_id user) (transactions db2)
                = [stored_row db user now1 (income_form title1 category1)
                     1000%float;
                   stored_row db1 user now2 (expense_form title2) 300%float]).
    { rewrite E2. simpl. rewrite E1 at 1. simpl.
      rewrite !filter_by_user_id_app, Hnone. simpl.
      now rewrite Z.eqb_refl. }
    unfold list_transactions. rewrite L. simpl.
    unfold net_balance, total_income, total_expense.
    destruct (now2 <=? now1), python; repeat split.
Qed.

(* ------------------------------------------------------------------ *)
(** ** C4: the breakdown of the expenses by category *)

Lemma category_eqb_eq a b : category_eqb a b = true <-> a = b.
Proof.
  destruct a as [x|], b as [y|]; simpl; split; try congruence.
  - intros H. apply String.eqb_eq in H. now subst.
  - intros H. injection H as ->. apply String.eqb_refl.
Qed.

Lemma category_eqb_refl a : category_eqb a a = true.
Proof. now apply category_eqb_eq. Qed.

Lemma category_eqb_sym a b : category_eqb a b = category_eqb b a.
Proof.
  destruct (category_eqb a b) eqn:E1, (category_eqb b a) eqn:E2;
    try reflexivity.
  - apply category_eqb_eq in E1. subst. now rewrite category_eqb_refl in E2.
  - apply category_eqb_eq in E2. subst. now rewrite category_eqb_refl in E1.
Qed.

Lemma lookup_set d k v c :
  Py.lookup category_eqb (Py.set category_eqb d k v) c
  = if category_eqb k c then Some v else Py.lookup category_eqb d c.
Proof.
  induction d as [|[k' v'] d IH]; simpl; [reflexivity|].
  destruct (category_eqb k' k) eqn:E; simpl.
  - apply category_eqb_eq in E. subst k'.
    now destruct (category_eqb k c).
  - rewrite IH. destruct (category_eqb k' c) eqn:E'; [|reflexivity].
    apply category_eqb_eq in E'. subst k'.
    rewrite category_eqb_sym in E. now rewrite E.
Qed.

Lemma get_lookup d c z :
  Py.get category_eqb d c z
  = match Py.lookup category_eqb d c with Some v => v | None => z end.
Proof.
  induction d as [|[k' v'] d IH]; simpl; [reflexivity|].
  now destruct (category_eqb k' c).
Qed.

Lemma keys_set d k v :
  Py.keys (Py.set category_eqb d k v) = push_new (Py.keys d) k.
Proof.
  unfold push_new, Py.keys.
  induction d as [|[k' v'] d IH]; simpl; [reflexivity|].
  rewrite (category_eqb_sym k k').
  destruct (category_eqb k' k); simpl; [reflexivity|].
  rewrite IH. now destruct (existsb (category_eqb k) (map fst d)).
Qed.

(** The value under a key after the loop has run over [ts] from the dict
    [d]: the left-to-right sum of the magnitudes of the expenses of that
    category, on top of what [d] held. *)
Lemma lookup_fold_add_expense c ts : forall d,
  Py.lookup category_eqb (fold_left add_expense ts d) c
  = match Py.lookup category_eqb d c, filter (expense_in c) ts with
    | None, [] => None
    | _, es =>
        Some (fold_left PrimFloat.add (map magnitude es)
                (Py.get category_eqb d c Py.zero))
    end.
Proof.
  induction ts as [|t r IH]; intros d; simpl.
  - rewrite get_lookup. now destruct (Py.lookup category_eqb d c).
  - rewrite IH. unfold add_expense, expense_in.
    destruct (is_expense t); simpl.
    + rewrite lookup_set, !get_lookup, lookup_set.
      destruct (category_eqb (t_category t) c) eqn:E; simpl.
      * apply category_eqb_eq in E. rewrite E.
        unfold magnitude.
        now destruct (Py.lookup category_eqb d c),
                     (filter _ r).
      * reflexivity.
    + reflexivity.
Qed.

Lemma keys_fold_add_expense ts : forall d,
  Py.keys (fold_left add_expense ts d)
  = fold_left push_new (map t_category (filter is_expense ts)) (Py.keys d).
Proof.
  induction ts as [|t r IH]; intros d; simpl; [reflexivity|].
  rewrite IH. unfold add_expense.
  destruct (is_expense t); simpl; [|reflexivity].
  now rewrite keys_set.
Qed.

Lemma filter_filter {A} (f g : A -> bool) l :
  filter f (filter g l) = filter (fun x => g x && f x) l.
Proof.
  induction l as [|x r IH]; simpl; [reflexivity|].
  destruct (g x); simpl; [|exact IH].
  destruct (f x); now rewrite IH.
Qed.

Lemma fold_push_new cs : forall ks,
  fold_left push_new cs ks
  = (ks ++ filter (fun c => negb (existsb (category_eqb c) ks))
                  (first_seen cs))%list.
Proof.
  induction cs as [|c r IH]; intros ks; simpl.
  - now rewrite app_nil_r.
  - rewrite IH. unfold push_new.
    destruct (existsb (category_eqb c) ks) eqn:E; simpl.
    + f_equal. rewrite filter_filter. apply filter_ext_in.
      intros x _. destruct (existsb (category_eqb x) ks) eqn:Ex; simpl;
        [now rewrite andb_false_r|].
      rewrite andb_true_r.
      destruct (category_eqb c x) eqn:Ecx; [|reflexivity].
      apply category_eqb_eq in Ecx. congruence.
    + rewrite <- app_assoc. simpl. f_equal. f_equal.
      rewrite filter_filter. apply filter_ext_in.
      intros x _. rewrite existsb_app. simpl.
      rewrite orb_false_r, negb_orb, (category_eqb_sym x c).
      apply andb_comm.
Qed.

Lemma add_expense_income t d : is_expense t = false -> add_expense d t = d.
Proof. unfold add_expense. now intros ->. Qed.

Lemma fold_add_expense_filter ts : forall d,
  fold_left add_expense (filter is_expense ts) d = fold_left add_expense ts d.
Proof.
  induction ts as [|t r IH]; intros d; simpl; [reflexivity|].
  destruct (is_expense t) eqn:E; simpl; [apply IH|].
  now rewrite IH, add_expense_income.
Qed.

Lemma existsb_filter_nil {A} (f : A -> bool) l :
  existsb f l = match filter f l with [] => false | _ => true end.
Proof.
  induction l as [|x r IH]; simpl; [reflexivity|].
  now destruct (f x).
Qed.


(* ------------------------------------------------------------------ *)
(** ** The user table *)

Lemma first_by_username_none name us :
  first (users_by_username name us) = None
  <-> (forall u, In u us -> u_username u <> name).
Proof.
  unfold first, users_by_username.
  induction us as [|u r IH]; simpl.
  - split; [intros _ u []|reflexivity].
  - destruct (String.eqb (u_username u) name) eqn:E; simpl.
    + apply String.eqb_eq in E. split; [discriminate|].
      intros H. exfalso. apply (H u); [now left|exact E].
    + apply String.eqb_neq in E. rewrite IH. split.
      * intros H v [<-|Hv]; [exact E|now apply H].
      * intros H v Hv. apply H. now right.
Qed.

Lemma first_by_username_some name us :
  (exists u, In u us /\ u_username u = name) ->
  exists u, first (users_by_username name us) = Some u.
Proof.
  intros [u [Hin Hname]].
  destruct (first (users_by_username name us)) as [v|] eqn:E.
  - now exists v.
  - exfalso. rewrite first_by_username_none in E. exact (E u Hin Hname).
Qed.

Lemma first_by_username_app name us u extra :
  first (users_by_username name us) = None ->
  u_username u = name ->
  first (users_by_username name (us ++ u :: extra)) = Some u.
Proof.
  unfold first, users_by_username. intros Hnone Hname.
  rewrite filter_app. simpl.
  rewrite Hname, String.eqb_refl.
  destruct (filter _ us); [reflexivity|discriminate].
Qed.

Lemma max_id_bound ids x : In x ids -> x <= fold_right Z.max 0 ids.
Proof.
  induction ids as [|y r IH]; simpl; [intros []|].
  intros [->|H]; [lia|]. specialize (IH H). lia.
Qed.

Lemma next_id_fresh ids : ~ In (next_id ids) ids.
Proof.
  unfold next_id. intros H. apply max_id_bound in H. lia.
Qed.

Lemma get_user_app uid us u extra :
  ~ In uid (map u_id us) ->
  u_id u = uid ->
  get_user uid (us ++ u :: extra) = Some u.
Proof.
  unfold get_user. intros Hfresh Hid.
  induction us as [|v r IH]; simpl.
  - now rewrite Hid, Z.eqb_refl.
  - simpl in Hfresh. destruct (u_id v =? uid) eqn:E.
    + apply Z.eqb_eq in E. exfalso. apply Hfresh. now left.
    + apply IH. intros H. apply Hfresh. now right.
Qed.

Section UserTable.

Variable Salt : Type.
Variable generate_password_hash : Salt -> string -> string.
Variable check_password_hash : string -> string -> bool.

Abbreviation register' := (register Salt generate_password_hash).
Abbreviation login' := (login check_password_hash).

(** The two outcomes of a registration that validates. *)
Lemma register_duplicate db salt form :
  validate_registration form = true ->
  (exists u, In u (users db) /\ u_username u = rf_username form) ->
  register' db salt (Some form)
  = (db, RenderRegister (Some form) (Some duplicate_username_error)).
Proof.
  intros V H. unfold register. simpl. rewrite V.
  destruct (first_by_username_some _ _ H) as [v ->]. reflexivity.
Qed.

Lemma register_fresh db salt form :
  validate_registration form = true ->
  (forall u, In u (users db) -> u_username u <> rf_username form) ->
  register' db salt (Some form)
  = ({| users :=
          users db
          ++ [{| u_id := next_id (map u_id (users db));
                 u_username := rf_username form;
                 u_password_hash :=
                   generate_password_hash salt (rf_password form) |}];
        transactions := transactions db |},
     Redirect "login").
Proof.
  intros V H. unfold register. simpl. rewrite V.
  apply first_by_username_none in H. now rewrite H.
Qed.

(** Every request leaves the rows of the user table in place and appends
    at most one, under a username that was not there. *)
Lemma serve_users db event :
  users (serve Salt generate_password_hash check_password_hash db event)
  = users db
  \/ exists u,
       users (serve Salt generate_password_hash check_password_hash db event)
       = (users db ++ [u])%list
       /\ (forall v, In v (users db) -> u_username v <> u_username u).
Proof.
  unfold serve, handle.
  destruct event as [sess [salt posted|posted| | |now posted]]; simpl.
  - unfold register.
    destruct (validate_on_submit validate_registration posted);
      [|now left].
    destruct posted as [form|]; [|now left].
    destruct (first (users_by_username (rf_username form) (users db)))
      eqn:E; [now left|].
    right. eexists. split; [reflexivity|]. simpl.
    now apply first_by_username_none.
  - left. now destruct (login _ db sess posted).
  - left. now destruct (logout db sess).
  - left. unfold reset_data. now destruct (current_user db sess).
  - left. unfold index.
    destruct (current_user db sess); [|reflexivity].
    destruct (validate_on_submit validate_transaction posted);
      [|reflexivity].
    destruct posted as [form|]; [|reflexivity].
    now destruct (tf_amount form).
Qed.

Lemma run_users trace : forall db,
  exists extra,
    users (run Salt generate_password_hash check_password_hash db trace)
    = (users db ++ extra)%list.
Proof.
  unfold run.
  induction trace as [|event rest IH]; intros db; simpl.
  - exists []. now rewrite app_nil_r.
  - destruct (IH (serve Salt generate_password_hash check_password_hash
                        db event)) as [extra E].
    rewrite E.
    destruct (serve_users db event) as [->|[u [-> _]]].
    + now exists extra.
    + exists (u :: extra). now rewrite <- app_assoc.
Qed.

Lemma run_unique_usernames trace : forall db,
  NoDup (map u_username (users db)) ->
  NoDup (map u_username
           (users (run Salt generate_password_hash check_password_hash
                       db trace))).
Proof.
  unfold run.
  induction trace as [|event rest IH]; intros db H; simpl; [exact H|].
  apply IH.
  destruct (serve_users db event) as [->|[u [-> Hu]]]; [exact H|].
  rewrite map_app. simpl.
  rewrite <- (rev_involutive (map u_username (users db) ++ [u_username u])).
  apply NoDup_rev. rewrite rev_app_distr. simpl.
  constructor.
  - rewrite <- in_rev. intros Hin. apply in_map_iff in Hin.
    destruct Hin as [v [Hv Hin]]. exact (Hu v Hin Hv).
  - now apply NoDup_rev.
Qed.

End UserTable.

Lemma demo_check_generate salt password :
  demo_check_password_hash (demo_generate_password_hash salt password)
                           password = true.
Proof. simpl. apply String.eqb_refl. Qed.

Lemma demo_generate_not_plain salt password :
  demo_generate_password_hash salt password <> password.
Proof.
  intros H. apply (f_equal String.length) in H.
  unfold demo_generate_password_hash in H. simpl in H. lia.
Qed.

(* ------------------------------------------------------------------ *)
(** ** C5: a failed login *)

(** C5.  For a login form that validates, when no user has the submitted
    username, and also when the user found under it fails the password
    check, [login] returns one and the same result: the session it was
    given (so an anonymous client stays anonymous) and the login page
    with the submitted form and the one message
    [invalid_credentials_error].  The result is a function of the request
    and the prior session alone, so the two causes cannot be told
    apart. *)
Theorem C5_login_failure_is_generic check_password_hash db sess form :
  validate_login form = true ->
  (forall u, In u (users db) -> u_username u <> lf_username form)
  \/ (exists u,
        first (users_by_username (lf_username form) (users db)) = Some u
        /\ check_password check_password_hash u (lf_password form) = false) ->
  login check_password_hash db sess (Some form)
  = (sess, RenderLogin (Some form) (Some invalid_credentials_error)).
Proof.
  intros V H. unfold login. simpl. rewrite V.
  destruct H as [H|[u [E C]]].
  - apply first_by_username_none in H. now rewrite H.
  - now rewrite E, C.
Qed.

(* ------------------------------------------------------------------ *)
(** ** C6: registration *)

(** C6.  Let a registration form validate, and let the hash that werkzeug
    generates never equal the password it is generated from.  (1) If a
    user with the submitted username exists, [register] answers with the
    form and [duplicate_username_error], and the database is unchanged.
    (2) If none exists, [register] redirects to the login page and the
    user table gains exactly one row at its end: the submitted username,
    an id that no other row has, and as password hash the generated
    salted hash of the password, which is not the password.  (3) In every
    database that a run reaches from the empty one, no two users share a
    username. *)
Theorem C6_register_duplicate_or_one_hashed_user
    (Salt : Type) (generate_password_hash : Salt -> string -> string)
    (check_password_hash : string -> string -> bool)
    (hash_differs : forall salt password,
        generate_password_hash salt password <> password)
    db salt form :
  validate_registration form = true ->
  ((exists u, In u (users db) /\ u_username u = rf_username form) ->
     register Salt generate_password_hash db salt (Some form)
     = (db, RenderRegister (Some form) (Some duplicate_username_error)))
  /\ ((forall u, In u (users db) -> u_username u <> rf_username form) ->
      exists u,
        register Salt generate_password_hash db salt (Some form)
        = ({| users := users db ++ [u]; transactions := transactions db |},
           Redirect "login")
        /\ u_username u = rf_username form
        /\ u_password_hash u
           = generate_password_hash salt (rf_password form)
        /\ u_password_hash u <> rf_password form
        /\ ~ In (u_id u) (map u_id (users db)))
  /\ (forall trace,
        NoDup (map u_username
                 (users (run Salt generate_password_hash check_password_hash
                             empty_db trace)))).
Proof.
  intros V. split; [|split].
  - now apply register_duplicate.
  - intros H. eexists. split; [now apply register_fresh|]. simpl.
    repeat split.
    + apply hash_differs.
    + apply next_id_fresh.
  - intros trace. apply run_unique_usernames. constructor.
Qed.

(* ------------------------------------------------------------------ *)
(** ** C8: register, then log in *)

(** C8.  Let [check_password_hash] accept every hash that
    [generate_password_hash] makes of the same password.  When a
    registration form validates and its username is not registered yet,
    [register] redirects to the login page and stores a user; after any
    further requests by any clients, a login that submits the same
    username and password succeeds: it redirects to the index page and
    the session names that user, whom [current_user] then resolves. *)
Theorem C8_register_then_login
    (Salt : Type) (generate_password_hash : Salt -> string -> string)
    (check_password_hash : string -> string -> bool)
    (check_accepts : forall salt password,
        check_password_hash (generate_password_hash salt password) password
        = true)
    db salt rform trace sess lform :
  validate_registration rform = true ->
  (forall u, In u (users db) -> u_username u <> rf_username rform) ->
  lf_csrf_ok lform = true ->
  lf_username lform = rf_username rform ->
  lf_password lform = rf_password rform ->
  exists u db1,
    register Salt generate_password_hash db salt (Some rform)
    = (db1, Redirect "login")
    /\ In u (users db1)
    /\ u_username u = rf_username rform
    /\ login check_password_hash
         (run Salt generate_password_hash check_password_hash db1 trace)
         sess (Some lform)
       = (Some (u_id u), Redirect "index")
    /\ current_user
         (run Salt generate_password_hash check_password_hash db1 trace)
         (Some (u_id u))
       = Some u.
Proof.
  intros V Hfresh Hcsrf Hname Hpw.
  set (new := {| u_id := next_id (map u_id (users db));
                 u_username := rf_username rform;
                 u_password_hash :=
                   generate_password_hash salt (rf_password rform) |}).
  set (db1 := {| users := users db ++ [new];
                 transactions := transactions db |}).
  exists new, db1. split; [now apply register_fresh|].
  split; [simpl; apply in_or_app; right; now left|].
  split; [reflexivity|].
  destruct (run_users Salt generate_password_hash check_password_hash
              trace db1) as [extra E].
  assert (E' : users (run Salt generate_password_hash check_password_hash
                          db1 trace)
               = (users db ++ new :: extra)%list).
  { rewrite E. simpl. now rewrite <- app_assoc. }
  split.
  - unfold login. simpl.
    assert (Vl : validate_login lform = true).
    { unfold validate_login, validate_registration in *.
      rewrite Hcsrf, Hname, Hpw.
      apply andb_true_iff in V. destruct V as [V1 V3].
      apply andb_true_iff in V1. destruct V1 as [_ V2].
      now rewrite V2, V3. }
    rewrite Vl, E', Hname.
    rewrite (first_by_username_app _ _ new extra);
      [|now apply first_by_username_none|reflexivity].
    unfold check_password. simpl. now rewrite Hpw, check_accepts.
  - unfold current_user, load_user. rewrite E'.
    apply get_user_app; [apply next_id_fresh|reflexivity].
Qed.

(* ------------------------------------------------------------------ *)
(** ** C10: the breakdown against the total expense *)

Lemma units_negative x : PrimFloat.ltb x 0%float = true -> units x <= 0.
Proof.
  rewrite ltb_spec. change (Prim2SF 0%float) with (S754_zero false).
  unfold units, exact_value.
  destruct (Prim2SF x) as [s|s| |s m e]; simpl; try lia.
  destruct s; [|discriminate]. intros _. simpl.
  assert (0 <= Z.shiftl (Z.pos m) (e + 1074)).
  { apply Z.shiftl_nonneg. lia. }
  lia.
Qed.

Lemma units_sum_set d k v :
  units_sum (Py.values (Py.set category_eqb d k v))
  = units_sum (Py.values d) - units (Py.get category_eqb d k Py.zero)
    + units v.
Proof.
  induction d as [|[k' v'] d IH]; simpl.
  - change (units Py.zero) with 0. lia.
  - destruct (category_eqb k' k); simpl; [lia|].
    rewrite IH. lia.
Qed.

Lemma exact_loop_units ts : forall d,
  exact_loop d ts = true ->
  units_sum (Py.values (fold_left add_expense ts d))
  = units_sum (Py.values d)
    + units_sum (map magnitude (filter is_expense ts)).
Proof.
  induction ts as [|t r IH]; intros d H; simpl in *; [lia|].
  apply andb_true_iff in H. destruct H as [H1 H2].
  rewrite (IH _ H2). unfold add_expense.
  destruct (is_expense t); simpl; [|reflexivity].
  destruct (exact_add_value _ _ H1) as [a [b [Ea [Eb Ec]]]].
  rewrite units_sum_set.
  fold (magnitude t).
  rewrite (units_of_value _ _ Ea), (units_of_value _ _ Eb),
          (units_of_value _ _ Ec).
  lia.
Qed.

Lemma units_sum_magnitudes ts :
  Forall (fun t => sign_matches_type t = true) ts ->
  units_sum (map magnitude (filter is_expense ts))
  = - units_sum (map t_amount (filter is_expense ts))
  /\ 0 <= units_sum (map magnitude (filter is_expense ts)).
Proof.
  induction 1 as [|t r Ht Hr IH]; simpl; [lia|].
  unfold sign_matches_type in Ht.
  destruct (is_expense t); simpl; [|exact IH].
  apply units_negative in Ht.
  unfold magnitude at 1 3. rewrite units_abs. lia.
Qed.

(** Two finite binary64 numbers of the same value compare equal: the
    representation of a value is unique. *)
Lemma digits2_pos_size m : digits2_pos m = Pos.size m.
Proof. induction m as [m IH|m IH|]; simpl; now rewrite ?IH. Qed.

Lemma size_bounds m :
  2 ^ (Z.pos (Pos.size m) - 1) <= Z.pos m < 2 ^ Z.pos (Pos.size m).
Proof.
  split.
  - pose proof (Pos.size_le m) as H.
    apply Pos2Z.pos_le_pos in H. rewrite Pos2Z.inj_pow in H.
    replace (Z.pos (Pos.size m)) with (Z.pos (Pos.size m) - 1 + 1) in H
      by lia.
    rewrite Z.pow_add_r in H by lia.
    change (Z.pos m~0) with (2 * Z.pos m) in H. lia.
  - pose proof (Pos.size_gt m) as H.
    apply Pos2Z.pos_lt_pos in H. now rewrite Pos2Z.inj_pow in H.
Qed.

Lemma bounded_exponent m e :
  bounded prec emax m e = true ->
  e = Z.max (Z.pos (Pos.size m) + e - 53) (-1074).
Proof.
  unfold bounded, canonical_mantissa, fexp, emin, prec, emax.
  rewrite digits2_pos_size. intros H.
  apply andb_true_iff in H. destruct H as [H _].
  apply Z.eqb_eq in H. lia.
Qed.

Lemma canonical_unique m1 e1 m2 e2 :
  bounded prec emax m1 e1 = true ->
  bounded prec emax m2 e2 = true ->
  Z.shiftl (Z.pos m1) (e1 + 1074) = Z.shiftl (Z.pos m2) (e2 + 1074) ->
  m1 = m2 /\ e1 = e2.
Proof.
  intros B1 B2 H.
  apply bounded_exponent in B1, B2.
  rewrite !Z.shiftl_mul_pow2 in H by lia.
  pose proof (size_bounds m1) as [L1 U1].
  pose proof (size_bounds m2) as [L2 U2].
  set (d1 := Z.pos (Pos.size m1)) in *.
  set (d2 := Z.pos (Pos.size m2)) in *.
  assert (P1 : 0 < 2 ^ (e1 + 1074)) by (apply Z.pow_pos_nonneg; lia).
  assert (P2 : 0 < 2 ^ (e2 + 1074)) by (apply Z.pow_pos_nonneg; lia).
  assert (D1 : 0 < d1) by (unfold d1; lia).
  assert (D2 : 0 < d2) by (unfold d2; lia).
  assert (half : forall d e m' d' e',
             0 < d -> 0 < d' -> -1074 <= e -> -1074 <= e' ->
             Z.pos m' < 2 ^ d' ->
             2 ^ (d - 1) * 2 ^ (e + 1074) <= Z.pos m' * 2 ^ (e' + 1074) ->
             d + e <= d' + e').
  { intros d e m' d' e' Hd Hd' He He' Hu Hl.
    destruct (Z_le_gt_dec (d + e) (d' + e')) as [|G]; [assumption|].
    exfalso.
    assert (Hlt : Z.pos m' * 2 ^ (e' + 1074) < 2 ^ d' * 2 ^ (e' + 1074)).
    { apply Z.mul_lt_mono_pos_r; [apply Z.pow_pos_nonneg; lia|exact Hu]. }
    rewrite <- !Z.pow_add_r in * by lia.
    assert (2 ^ (d' + (e' + 1074)) <= 2 ^ (d - 1 + (e + 1074))).
    { apply Z.pow_le_mono_r; lia. }
    lia. }
  assert (S12 : d1 + e1 <= d2 + e2).
  { apply (half d1 e1 m2 d2 e2); try lia.
    rewrite <- H. apply Z.mul_le_mono_nonneg_r; lia. }
  assert (S21 : d2 + e2 <= d1 + e1).
  { apply (half d2 e2 m1 d1 e1); try lia.
    rewrite H. apply Z.mul_le_mono_nonneg_r; lia. }
  assert (e1 = e2) by lia. subst e2. split; [|reflexivity].
  apply Z.mul_cancel_r in H; [congruence|lia].
Qed.

Lemma exact_value_eqb x y v :
  exact_value x = Some v -> exact_value y = Some v ->
  PrimFloat.eqb x y = true.
Proof.
  unfold exact_value. rewrite eqb_spec.
  pose proof (Prim2SF_valid x) as Vx.
  pose proof (Prim2SF_valid y) as Vy.
  destruct (Prim2SF x) as [sx|sx| |sx mx ex];
    destruct (Prim2SF y) as [sy|sy| |sy my ey];
    try discriminate; simpl in Vx, Vy; intros Hx Hy.
  - reflexivity.
  - exfalso. injection Hx as <-. injection Hy as Hy.
    pose proof (bounded_exponent _ _ Vy).
    rewrite Z.shiftl_mul_pow2 in Hy by lia.
    assert (0 < Z.pos my * 2 ^ (ey + 1074)).
    { apply Z.mul_pos_pos; [lia|apply Z.pow_pos_nonneg; lia]. }
    unfold cond_Zopp in Hy. destruct sy; lia.
  - exfalso. injection Hy as <-. injection Hx as Hx.
    pose proof (bounded_exponent _ _ Vx).
    rewrite Z.shiftl_mul_pow2 in Hx by lia.
    assert (0 < Z.pos mx * 2 ^ (ex + 1074)).
    { apply Z.mul_pos_pos; [lia|apply Z.pow_pos_nonneg; lia]. }
    unfold cond_Zopp in Hx. destruct sx; lia.
  - injection Hx as Hx. injection Hy as Hy. rewrite <- Hx in Hy.
    pose proof (bounded_exponent _ _ Vx) as Bx.
    pose proof (bounded_exponent _ _ Vy) as By'.
    assert (Px : 0 < Z.shiftl (Z.pos mx) (ex + 1074)).
    { rewrite Z.shiftl_mul_pow2 by lia.
      apply Z.mul_pos_pos; [lia|apply Z.pow_pos_nonneg; lia]. }
    assert (Py' : 0 < Z.shiftl (Z.pos my) (ey + 1074)).
    { rewrite Z.shiftl_mul_pow2 by lia.
      apply Z.mul_pos_pos; [lia|apply Z.pow_pos_nonneg; lia]. }
    assert (sx = sy /\ Z.shiftl (Z.pos mx) (ex + 1074)
                       = Z.shiftl (Z.pos my) (ey + 1074)) as [-> Hv].
    { unfold cond_Zopp in Hy.
      destruct sx, sy; split; try reflexivity; lia. }
    destruct (canonical_unique _ _ _ _ Vx Vy Hv) as [-> ->].
    unfold SFeqb, SFcompare.
    rewrite Z.compare_refl.
    change (Pos.compare_cont Eq my my) with (Pos.compare my my).
    rewrite Pos.compare_refl. now destruct sy.
Qed.

(** C10, amended.  Let every row of the listing have the sign of its type
    (as every stored row has), and let nothing be rounded: not in the
    [sum] behind the total expense (no addition of it is rounded, and on
    3.12 its compensation term ends as zero), not in the loop over the
    categories, not in a left-to-right sum of the dict values.
    Then the values of [expense_by_category] add up to the total expense
    that the page reports: the two numbers compare equal, and both have
    the exact value of the sum of the magnitudes of the expenses. *)
Theorem C10_breakdown_adds_up_when_exact all_transactions :
  Forall (fun t => sign_matches_type t = true) all_transactions ->
  additions_exact all_transactions = true ->
  breakdown_adds_up all_transactions
  /\ exact_value (Py.sum (Py.values (expense_by_category all_transactions)))
     = Some (units_sum
               (map magnitude (filter is_expense all_transactions)))
  /\ exact_value (page_total_expense (index_page all_transactions))
     = Some (units_sum
               (map magnitude (filter is_expense all_transactions))).
Proof.
  intros Hsigns Hexact. unfold additions_exact in Hexact.
  apply andb_true_iff in Hexact. destruct Hexact as [Hexact H3].
  apply andb_true_iff in Hexact. destruct Hexact as [H1 H2].
  destruct (units_sum_magnitudes _ Hsigns) as [Hneg Hpos].
  assert (Z0 : exact_value Py.zero = Some 0) by reflexivity.
  assert (Ev : exact_value
                 (Py.sum (Py.values (expense_by_category all_transactions)))
               = Some (units_sum
                         (map magnitude
                              (filter is_expense all_transactions)))).
  { unfold Py.sum. rewrite (exact_sum_from_value _ _ _ Z0 H3).
    unfold expense_by_category. rewrite (exact_loop_units _ _ H2).
    reflexivity. }
  assert (Et : exact_value (page_total_expense (index_page all_transactions))
               = Some (units_sum
                         (map magnitude
                              (filter is_expense all_transactions)))).
  { simpl. rewrite exact_value_abs. unfold total_expense.
    rewrite (exact_sum_value _ H1). simpl. f_equal. lia. }
  split; [|split; assumption].
  exact (exact_value_eqb _ _ _ Ev Et).
Qed.

(* ================================================================== *)
(** * Further properties of the handlers *)

(* ------------------------------------------------------------------ *)
(** ** What one request can do to the database *)

Lemma current_user_in db sess user :
  current_user db sess = Some user ->
  In user (users db) /\ sess = Some (u_id user).
Proof.
  unfold current_user, load_user, get_user.
  destruct sess as [uid|]; [|discriminate].
  intros H. apply find_some in H. destruct H as [Hin Hid].
  apply Z.eqb_eq in Hid. now subst uid.
Qed.

Section Steps.

Variable Salt : Type.
Variable generate_password_hash : Salt -> string -> string.
Variable check_password_hash : string -> string -> bool.

Abbreviation handle' :=
  (handle Salt generate_password_hash check_password_hash).
Abbreviation step :=
  (serve Salt generate_password_hash check_password_hash).
Abbreviation runs :=
  (run Salt generate_password_hash check_password_hash).

(** A request leaves the database as it is, or registers one user under a
    fresh name, or deletes the rows of the logged-in user, or appends one
    validated row of the logged-in user. *)
Lemma serve_cases db sess req :
  step db (sess, req) = db
  \/ (exists salt form,
        validate_registration form = true
        /\ (forall u, In u (users db) -> u_username u <> rf_username form)
        /\ step db (sess, req)
           = {| users :=
                  users db
                  ++ [{| u_id := next_id (map u_id (users db));
                         u_username := rf_username form;
                         u_password_hash :=
                           generate_password_hash salt (rf_password form) |}];
                transactions := transactions db |})
  \/ (exists user,
        current_user db sess = Some user
        /\ step db (sess, req)
           = {| users := users db;
                transactions :=
                  rows_of_others (u_id user) (transactions db) |})
  \/ (exists user now form m,
        current_user db sess = Some user
        /\ validate_transaction form = true
        /\ tf_amount form = Some m
        /\ step db (sess, req)
           = {| users := users db;
                transactions :=
                  transactions db ++ [stored_row db user now form m] |}).
Proof.
  unfold serve, handle.
  destruct req as [salt posted|posted| | |now posted]; simpl.
  - unfold register.
    destruct posted as [form|]; simpl; [|now left].
    destruct (validate_registration form) eqn:V; [|now left].
    destruct (first (users_by_username (rf_username form) (users db)))
      eqn:E; [now left|].
    right. left. exists salt, form. split; [exact V|]. split; [|reflexivity].
    now apply first_by_username_none.
  - left. now destruct (login _ db sess posted).
  - left. now destruct (logout db sess).
  - unfold reset_data.
    destruct (current_user db sess) as [user|] eqn:Hu; [|now left].
    right. right. left. now exists user.
  - unfold index.
    destruct (current_user db sess) as [user|] eqn:Hu; [|now left].
    destruct posted as [form|]; simpl; [|now left].
    destruct (validate_transaction form) eqn:V; [|now left].
    destruct (tf_amount form) as [m|] eqn:A; [|now left].
    right. right. right. now exists user, now, form, m.
Qed.

End Steps.

(* ------------------------------------------------------------------ *)
(** ** X1: the pages behind [login_required] *)

(** X1.  A client whose session resolves to no user (no id in the cookie,
    or the id of no row of the user table) is sent to the login page by
    [index], [reset_data] and [logout], with database and session
    untouched; and whatever such a client requests, the ledger stays as
    it is and no response is the index page. *)
Theorem X1_login_required
    (Salt : Type) (generate_password_hash : Salt -> string -> string)
    (check_password_hash : string -> string -> bool)
    db sess req :
  current_user db sess = None ->
  (forall now posted, index db sess now posted = (db, Redirect "login"))
  /\ reset_data db sess = (db, Redirect "login")
  /\ logout db sess = (sess, Redirect "login")
  /\ transactions
       (fst (fst (handle Salt generate_password_hash check_password_hash
                         db sess req)))
     = transactions db
  /\ (forall form page,
        snd (handle Salt generate_password_hash check_password_hash
                    db sess req)
        <> RenderIndex form page).
Proof.
  intros Hu.
  assert (Hi : forall now posted,
             index db sess now posted = (db, Redirect "login")).
  { intros now posted. unfold index. now rewrite Hu. }
  assert (Hr : reset_data db sess = (db, Redirect "login")).
  { unfold reset_data. now rewrite Hu. }
  assert (Hl : logout db sess = (sess, Redirect "login")).
  { unfold logout. now rewrite Hu. }
  split; [exact Hi|]. split; [exact Hr|]. split; [exact Hl|].
  destruct req as [salt posted|posted| | |now posted]; simpl.
  - pose proof (register_transactions Salt generate_password_hash
                  db salt posted) as Ht.
    destruct (register Salt generate_password_hash db salt posted)
      as [db' resp] eqn:E.
    simpl in *. split; [exact Ht|].
    intros form page. unfold register in E.
    destruct posted as [f|]; simpl in E; [|inversion E; discriminate].
    destruct (validate_registration f); [|inversion E; discriminate].
    destruct (first (users_by_username (rf_username f) (users db)));
      inversion E; discriminate.
  - destruct (login check_password_hash db sess posted)
      as [sess' resp] eqn:E.
    simpl. split; [reflexivity|].
    intros form page. unfold login in E.
    destruct posted as [f|]; simpl in E; [|inversion E; discriminate].
    destruct (validate_login f); [|inversion E; discriminate].
    destruct (first (users_by_username (lf_username f) (users db)));
      [|inversion E; discriminate].
    destruct (check_password check_password_hash u (lf_password f));
      inversion E; discriminate.
  - rewrite Hl. split; [reflexivity|discriminate].
  - rewrite Hr. split; [reflexivity|discriminate].
  - rewrite Hi. split; [reflexivity|discriminate].
Qed.

(* ------------------------------------------------------------------ *)
(** ** X2: submissions that the form turns down *)

Lemma below_minimum m :
  PrimFloat.ltb m 0.01%float = true -> PrimFloat.leb 0.01%float m = false.
Proof.
  rewrite ltb_spec, leb_spec.
  change (Prim2SF 0.01%float)
    with (S754_finite false 5764607523034235 (-59)).
  generalize 5764607523034235%positive as k. generalize (-59) as ek.
  intros ek k.
  destruct (Prim2SF m) as [s|s| |s mant e];
    unfold SFltb, SFleb, SFcompare.
  - reflexivity.
  - now destruct s.
  - reflexivity.
  - destruct s; [reflexivity|].
    rewrite (Z.compare_antisym e ek).
    assert (A : Pos.compare_cont Eq k mant
                = CompOpp (Pos.compare_cont Eq mant k)).
    { now rewrite Pos.compare_cont_antisym. }
    rewrite A.
    destruct (e ?= ek); cbn [CompOpp]; try discriminate; try reflexivity.
    now destruct (Pos.compare_cont Eq mant k).
Qed.

Lemma not_positive_below_minimum m :
  PrimFloat.leb m 0%float = true -> PrimFloat.ltb m 0.01%float = true.
Proof.
  rewrite ltb_spec, leb_spec.
  change (Prim2SF 0.01%float)
    with (S754_finite false 5764607523034235 (-59)).
  change (Prim2SF 0%float) with (S754_zero false).
  generalize 5764607523034235%positive as k. generalize (-59) as ek.
  intros ek k.
  destruct (Prim2SF m) as [s|s| |s mant e];
    unfold SFltb, SFleb, SFcompare.
  - reflexivity.
  - now destruct s.
  - discriminate.
  - now destruct s.
Qed.

Lemma valid_choice_in choices v :
  Validators.valid_choice choices v = true <-> In v choices.
Proof.
  unfold Validators.valid_choice. rewrite existsb_exists. split.
  - intros [x [Hin Heq]]. apply String.eqb_eq in Heq. now subst.
  - intros Hin. exists v. split; [exact Hin|apply String.eqb_refl].
Qed.

(** X2.  When a logged-in user posts a form with a failed CSRF check, a
    blank title, no parsable amount, an amount that is a NaN, below 0.01
    or not positive, a type other than Gider and Gelir, or a category
    outside the eight choices, [index] stores nothing: the database is
    unchanged and the page is rendered from the user's listing, with the
    posted form. *)
Theorem X2_index_rejects_invalid_submission db sess now form user :
  current_user db sess = Some user ->
  tf_csrf_ok form = false
  \/ Validators.all_space (tf_title form) = true
  \/ tf_amount form = None
  \/ (exists m, tf_amount form = Some m
                /\ (Py.isnan m = true
                    \/ PrimFloat.ltb m 0.01%float = true
                    \/ PrimFloat.leb m 0%float = true))
  \/ ~ In (tf_transaction_type form) type_choices
  \/ ~ In (tf_category form) category_choices ->
  index db sess now (Some form)
  = (db, RenderIndex (Some form)
           (index_page (list_transactions db (u_id user)))).
Proof.
  intros Hu Hbad.
  assert (V : validate_transaction form = false).
  { unfold validate_transaction.
    destruct Hbad as [H|[H|[H|[[m [A H]]|[H|H]]]]].
    - now rewrite H.
    - unfold Validators.data_required_str at 1. rewrite H. simpl.
      now rewrite andb_false_r.
    - rewrite H. simpl. now rewrite !andb_false_r.
    - rewrite A. simpl.
      assert (R : negb (Py.isnan m) && PrimFloat.leb 0.01%float m = false).
      { destruct H as [H|[H|H]].
        - now rewrite H.
        - rewrite (below_minimum m H). apply andb_false_r.
        - rewrite (below_minimum m (not_positive_below_minimum m H)).
          apply andb_false_r. }
      rewrite R. now rewrite !andb_false_r.
    - destruct (Validators.valid_choice type_choices
                  (tf_transaction_type form)) eqn:E.
      + apply valid_choice_in in E. contradiction.
      + now rewrite !andb_false_r.
    - destruct (Validators.valid_choice category_choices (tf_category form))
        eqn:E.
      + apply valid_choice_in in E. contradiction.
      + now rewrite !andb_false_r. }
  unfold index. rewrite Hu. simpl. now rewrite V.
Qed.

(* ------------------------------------------------------------------ *)
(** ** X3: logging out *)

(** X3.  For a logged-in user, [logout] clears the session and redirects
    to the login page; with the cleared session no user is current, and
    [index] and [reset_data] redirect to the login page and leave the
    database as it is. *)
Theorem X3_logout_ends_the_session db sess user :
  current_user db sess = Some user ->
  logout db sess = (None, Redirect "login")
  /\ current_user db (fst (logout db sess)) = None
  /\ (forall now posted,
        index db (fst (logout db sess)) now posted = (db, Redirect "login"))
  /\ reset_data db (fst (logout db sess)) = (db, Redirect "login").
Proof.
  intros Hu.
  assert (E : logout db sess = (None, Redirect "login")).
  { unfold logout. now rewrite Hu. }
  rewrite E. simpl. repeat split.
Qed.

(* ------------------------------------------------------------------ *)
(** ** X4: the integrity of the two tables *)

Lemma NoDup_snoc {A} (l : list A) x :
  NoDup l -> ~ In x l -> NoDup (l ++ [x]).
Proof.
  intros Hl Hx. rewrite <- (rev_involutive (l ++ [x])).
  apply NoDup_rev. rewrite rev_app_distr. simpl.
  constructor; [now rewrite <- in_rev|now apply NoDup_rev].
Qed.

Lemma NoDup_map_filter {A B} (f : A -> B) (p : A -> bool) l :
  NoDup (map f l) -> NoDup (map f (filter p l)).
Proof.
  induction l as [|x r IH]; simpl; [trivial|].
  intros H. inversion H as [|y ys Hnotin Hr]; subst.
  destruct (p x); simpl; [|now apply IH].
  constructor; [|now apply IH].
  intros Hin. apply Hnotin.
  apply in_map_iff in Hin. destruct Hin as [z [Hz Hin]].
  apply filter_In in Hin. apply in_map_iff. exists z. tauto.
Qed.

Lemma abs_signed_amount ty m :
  PrimFloat.ltb 0%float m = true ->
  PrimFloat.abs (signed_amount ty m) = m.
Proof.
  intros P. unfold signed_amount.
  destruct (String.eqb ty Gider); [|now apply abs_of_positive].
  rewrite (abs_of_positive m P).
  apply Prim2SF_inj. rewrite abs_spec, opp_spec.
  destruct (positive_float_cases m P) as [E|[mant [e E]]]; now rewrite E.
Qed.

Lemma stored_row_well_formed db user now form m :
  validate_transaction form = true ->
  tf_amount form = Some m ->
  row_well_formed (stored_row db user now form m) = true.
Proof.
  intros V A.
  destruct (validate_transaction_inv form V) as [m' [A' [P _]]].
  assert (m' = m) by congruence. subst m'.
  unfold validate_transaction in V. rewrite A in V.
  repeat (apply andb_true_iff in V; destruct V as [V ?]).
  unfold row_well_formed, stored_row. simpl.
  rewrite (abs_signed_amount _ m P).
  repeat (apply andb_true_iff; split); try assumption.
  unfold Validators.number_range_min in *.
  match goal with
  | H : negb (Py.isnan m) && _ = true |- _ =>
      apply andb_true_iff in H; now destruct H
  end.
Qed.

Section Integrity.

Variable Salt : Type.
Variable generate_password_hash : Salt -> string -> string.
Variable check_password_hash : string -> string -> bool.

Lemma serve_keeps_keys db event :
  keys_ok db ->
  keys_ok (serve Salt generate_password_hash check_password_hash db event).
Proof.
  intros (Hu & Ht & Ho). destruct event as [sess req].
  destruct (serve_cases Salt generate_password_hash check_password_hash
              db sess req)
    as [->|[(salt & form & _ & _ & ->)|[(user & Hcur & ->)
       |(user & now & form & m & Hcur & _ & _ & ->)]]].
  - now repeat split.
  - repeat split; simpl.
    + rewrite map_app. simpl. apply NoDup_snoc; [exact Hu|].
      apply next_id_fresh.
    + exact Ht.
    + eapply Forall_impl; [|exact Ho].
      intros t (u & Hin & Hid). exists u. split; [|exact Hid].
      simpl. apply in_or_app. now left.
  - repeat split; simpl.
    + exact Hu.
    + now apply NoDup_map_filter.
    + unfold rows_of_others. rewrite Forall_forall in Ho |- *.
      intros t Hin. apply filter_In in Hin. destruct Hin as [Hin _].
      exact (Ho t Hin).
  - repeat split; simpl.
    + exact Hu.
    + rewrite map_app. simpl. apply NoDup_snoc; [exact Ht|].
      apply next_id_fresh.
    + apply Forall_app. split.
      * exact Ho.
      * constructor; [|constructor].
        exists user. split; [|reflexivity].
        now apply current_user_in in Hcur.
Qed.

Lemma run_keeps_keys trace : forall db,
  keys_ok db ->
  keys_ok (run Salt generate_password_hash check_password_hash db trace).
Proof.
  unfold run.
  induction trace as [|event rest IH]; intros db H; simpl; [exact H|].
  apply IH. now apply serve_keeps_keys.
Qed.

Lemma serve_keeps_rows_well_formed db event :
  Forall (fun t => row_well_formed t = true) (transactions db) ->
  Forall (fun t => row_well_formed t = true)
    (transactions
       (serve Salt generate_password_hash check_password_hash db event)).
Proof.
  intros H. destruct event as [sess req].
  destruct (serve_cases Salt generate_password_hash check_password_hash
              db sess req)
    as [->|[(salt & form & _ & _ & ->)|[(user & Hcur & ->)
       |(user & now & form & m & Hcur & V & A & ->)]]]; simpl.
  - exact H.
  - exact H.
  - unfold rows_of_others. rewrite Forall_forall in H |- *.
    intros t Hin. apply filter_In in Hin. destruct Hin as [Hin _].
    exact (H t Hin).
  - apply Forall_app. split; [exact H|].
    constructor; [|constructor].
    now apply stored_row_well_formed.
Qed.

Lemma run_keeps_rows_well_formed trace : forall db,
  Forall (fun t => row_well_formed t = true) (transactions db) ->
  Forall (fun t => row_well_formed t = true)
    (transactions
       (run Salt generate_password_hash check_password_hash db trace)).
Proof.
  unfold run.
  induction trace as [|event rest IH]; intros db H; simpl; [exact H|].
  apply IH. now apply serve_keeps_rows_well_formed.
Qed.

End Integrity.

Lemma keys_ok_empty : keys_ok empty_db.
Proof. repeat split; constructor. Qed.

(** X4.  In every database that a run of requests reaches from the empty
    one: no two users share an id, no two rows of the ledger share an id,
    and every row of the ledger is owned by a row of the user table;
    every row of the ledger has a type among Gider and Gelir, a category
    among the eight choices (never NULL), a title that is not blank and
    an amount of magnitude at least 0.01. *)
Theorem X4_tables_keep_their_integrity
    (Salt : Type) (generate_password_hash : Salt -> string -> string)
    (check_password_hash : string -> string -> bool) trace :
  keys_ok (run Salt generate_password_hash check_password_hash
               empty_db trace)
  /\ Forall (fun t => row_well_formed t = true)
       (transactions
          (run Salt generate_password_hash check_password_hash
               empty_db trace)).
Proof.
  split.
  - apply run_keeps_keys. apply keys_ok_empty.
  - apply run_keeps_rows_well_formed. constructor.
Qed.

(* ------------------------------------------------------------------ *)
(** ** X5: an account stays as it was registered *)

Lemma first_by_username_stable name us extra u :
  first (users_by_username name us) = Some u ->
  first (users_by_username name (us ++ extra)) = Some u.
Proof.
  unfold first, users_by_username. rewrite filter_app.
  destruct (filter _ us); [discriminate|]. trivial.
Qed.

(** X5.  Whatever requests are served after a user was registered,
    nothing changes how a login under that username is answered: the
    user found by the username is the same row, with the same password
    hash, so [login] returns the same session and response as before. *)
Theorem X5_login_outcome_is_stable
    (Salt : Type) (generate_password_hash : Salt -> string -> string)
    (check_password_hash : string -> string -> bool)
    db trace sess form u :
  first (users_by_username (lf_username form) (users db)) = Some u ->
  first (users_by_username (lf_username form)
           (users (run Salt generate_password_hash check_password_hash
                       db trace)))
  = Some u
  /\ login check_password_hash
       (run Salt generate_password_hash check_password_hash db trace)
       sess (Some form)
     = login check_password_hash db sess (Some form).
Proof.
  intros Hu.
  destruct (run_users Salt generate_password_hash check_password_hash
              trace db) as [extra E].
  assert (Hu' : first (users_by_username (lf_username form)
                         (users (run Salt generate_password_hash
                                     check_password_hash db trace)))
                = Some u).
  { rewrite E. now apply first_by_username_stable. }
  split; [exact Hu'|].
  unfold login. simpl. now rewrite Hu, Hu'.
Qed.

(* ------------------------------------------------------------------ *)
(** ** X6: a successful login names the user it found *)

Lemma get_user_unique us u :
  NoDup (map u_id us) -> In u us -> get_user (u_id u) us = Some u.
Proof.
  unfold get_user.
  induction us as [|v r IH]; simpl; [intros _ []|].
  intros Hnd Hin. inversion Hnd as [|x xs Hnotin Hr]; subst.
  destruct Hin as [->|Hin]; [now rewrite Z.eqb_refl|].
  destruct (u_id v =? u_id u) eqn:E; [|now apply IH].
  apply Z.eqb_eq in E. exfalso. apply Hnotin. rewrite E.
  now apply in_map.
Qed.

Lemma first_by_username_in name us u :
  first (users_by_username name us) = Some u ->
  In u us /\ u_username u = name.
Proof.
  unfold first, users_by_username. intros H.
  assert (Hin : In u (filter (fun v => String.eqb (u_username v) name) us)).
  { destruct (filter _ us); [discriminate|]. injection H as ->. now left. }
  apply filter_In in Hin. now rewrite String.eqb_eq in Hin.
Qed.

(** X6.  In a database whose keys are distinct, when a login form
    validates and the user found under its username passes the password
    check, [login] redirects to the index page and stores that user's id
    in the session; the session then resolves to the very same user, who
    bears the submitted username, and the index page is rendered from
    that user's listing. *)
Theorem X6_login_establishes_the_session_of_the_user
    check_password_hash db sess form u now :
  keys_ok db ->
  validate_login form = true ->
  first (users_by_username (lf_username form) (users db)) = Some u ->
  check_password check_password_hash u (lf_password form) = true ->
  login check_password_hash db sess (Some form)
  = (Some (u_id u), Redirect "index")
  /\ current_user db (Some (u_id u)) = Some u
  /\ u_username u = lf_username form
  /\ index db (Some (u_id u)) now None
     = (db, RenderIndex None (index_page (list_transactions db (u_id u)))).
Proof.
  intros (Hnd & _ & _) V Hu Hc.
  destruct (first_by_username_in _ _ _ Hu) as [Hin Hname].
  assert (Hcur : current_user db (Some (u_id u)) = Some u).
  { unfold current_user, load_user. now apply get_user_unique. }
  split; [|split; [exact Hcur|split; [exact Hname|]]].
  - unfold login. simpl. now rewrite V, Hu, Hc.
  - unfold index. now rewrite Hcur.
Qed.

Lemma demo_db_keys_ok : keys_ok demo_db.
Proof.
  repeat split.
  - repeat constructor; simpl; intuition discriminate.
  - repeat constructor; simpl; intuition discriminate.
  - repeat constructor.
    + exists alice. split; [now left|reflexivity].
    + exists alice. split; [now left|reflexivity].
    + exists bob. split; [right; now left|reflexivity].
Defined.

(* ------------------------------------------------------------------ *)
(** ** X7: a new user starts with an empty ledger *)

Lemma no_rows_of_fresh_id db :
  Forall (owner_exists db) (transactions db) ->
  filter_by_user_id (next_id (map u_id (users db))) (transactions db) = [].
Proof.
  intros Ho. unfold filter_by_user_id.
  induction Ho as [|t r (u & Hin & Hid) Hr IH]; simpl; [reflexivity|].
  destruct (t_user_id t =? next_id (map u_id (users db))) eqn:E;
    [|exact IH].
  apply Z.eqb_eq in E. exfalso.
  apply (next_id_fresh (map u_id (users db))).
  rewrite <- E, <- Hid. now apply in_map.
Qed.

(** X7.  In a database whose ledger rows all have an owner, a
    registration that validates under a fresh username creates a user
    who owns no row: under the new user's session the index page is
    rendered from the empty listing, with zero totals and an empty
    chart. *)
Theorem X7_new_user_starts_with_an_empty_ledger
    (Salt : Type) (generate_password_hash : Salt -> string -> string)
    db salt form now :
  keys_ok db ->
  validate_registration form = true ->
  (forall u, In u (users db) -> u_username u <> rf_username form) ->
  exists u db1,
    register Salt generate_password_hash db salt (Some form)
    = (db1, Redirect "login")
    /\ current_user db1 (Some (u_id u)) = Some u
    /\ u_username u = rf_username form
    /\ list_transactions db1 (u_id u) = []
    /\ index db1 (Some (u_id u)) now None
       = (db1,
          RenderIndex None
            {| page_transactions := [];
               page_total_income := 0%float;
               page_total_expense := 0%float;
               page_net_balance := 0%float;
               page_chart_labels := [];
               page_chart_data := [] |}).
Proof.
  intros (_ & _ & Ho) V Hfresh.
  set (new := {| u_id := next_id (map u_id (users db));
                 u_username := rf_username form;
                 u_password_hash :=
                   generate_password_hash salt (rf_password form) |}).
  set (db1 := {| users := users db ++ [new];
                 transactions := transactions db |}).
  exists new, db1.
  assert (Hcur : current_user db1 (Some (u_id new)) = Some new).
  { unfold current_user, load_user. simpl.
    apply get_user_app; [apply next_id_fresh|reflexivity]. }
  assert (Hlist : list_transactions db1 (u_id new) = []).
  { unfold list_transactions. simpl.
    now rewrite (no_rows_of_fresh_id db Ho). }
  split; [now apply register_fresh|].
  split; [exact Hcur|]. split; [reflexivity|]. split; [exact Hlist|].
  unfold index. rewrite Hcur, Hlist. reflexivity.
Qed.

(* ------------------------------------------------------------------ *)
(** ** X8: where a new row appears in the listing *)

Lemma order_by_date_desc_snoc ts t :
  order_by_date_desc (ts ++ [t])
  = fold_right insert_by_date_desc [t] ts.
Proof. unfold order_by_date_desc. now rewrite fold_right_app. Qed.

Lemma insert_all_older ts t :
  (forall h, In h ts -> t_date h < t_date t) ->
  fold_right insert_by_date_desc [t] ts = t :: order_by_date_desc ts.
Proof.
  unfold order_by_date_desc.
  induction ts as [|h r IH]; intros Hold; simpl; [reflexivity|].
  rewrite IH by (intros x Hx; apply Hold; now right). simpl.
  replace (t_date t <=? t_date h) with false; [reflexivity|].
  symmetry. apply Z.leb_gt. apply Hold. now left.
Qed.

Lemma list_transactions_after_add db user now form m :
  list_transactions
    {| users := users db;
       transactions := transactions db ++ [stored_row db user now form m] |}
    (u_id user)
  = fold_right insert_by_date_desc [stored_row db user now form m]
      (filter_by_user_id (u_id user) (transactions db)).
Proof.
  unfold list_transactions. simpl.
  rewrite filter_by_user_id_app. simpl. rewrite Z.eqb_refl.
  apply order_by_date_desc_snoc.
Qed.

(** X8.  When a logged-in user posts a form that validates, the user's
    next listing holds the stored row besides the rows it held before,
    once each (a permutation of the new row put before the old listing);
    and when the clock reading is later than the date of every row the
    user owns, the stored row is the first of the listing and the old
    listing follows it unchanged. *)
Theorem X8_new_row_in_the_listing db sess now form user m :
  current_user db sess = Some user ->
  validate_transaction form = true ->
  tf_amount form = Some m ->
  Permutation
    (list_transactions (fst (index db sess now (Some form))) (u_id user))
    (stored_row db user now form m :: list_transactions db (u_id user))
  /\ ((forall t, In t (transactions db) -> t_user_id t = u_id user ->
                 t_date t < now) ->
      list_transactions (fst (index db sess now (Some form))) (u_id user)
      = stored_row db user now form m :: list_transactions db (u_id user)).
Proof.
  intros Hu V A.
  rewrite (index_valid_post db sess now form user m Hu V A). simpl.
  split.
  - unfold list_transactions. simpl.
    rewrite filter_by_user_id_app. simpl. rewrite Z.eqb_refl.
    eapply perm_trans; [apply order_by_date_desc_perm|].
    eapply perm_trans; [apply Permutation_app_comm|]. simpl.
    apply perm_skip. apply Permutation_sym, order_by_date_desc_perm.
  - intros Hold. rewrite list_transactions_after_add.
    apply insert_all_older. intros h Hin.
    apply filter_In in Hin. destruct Hin as [Hin Hown].
    apply Z.eqb_eq in Hown. simpl. now apply Hold.
Qed.

(* ------------------------------------------------------------------ *)
(** ** X9: incomes and expenses do not mix *)

Lemma filter_insert_by_date_desc (p : Transaction -> bool) h ts :
  StronglySorted newest_first ts ->
  filter p (insert_by_date_desc h ts)
  = if p h then insert_by_date_desc h (filter p ts) else filter p ts.
Proof.
  induction 1 as [|y r Hr IH Hy]; simpl.
  - now destruct (p h).
  - destruct (t_date y <=? t_date h) eqn:E; simpl.
    + destruct (p h) eqn:Ph; [|reflexivity].
      destruct (p y) eqn:Py'; simpl; [now rewrite E|].
      destruct (filter p r) as [|z zs] eqn:F; simpl; [reflexivity|].
      replace (t_date z <=? t_date h) with true; [reflexivity|].
      symmetry. apply Z.leb_le. apply Z.leb_le in E.
      assert (Hz : In z r).
      { assert (Hin : In z (filter p r)) by (rewrite F; now left).
        now apply filter_In in Hin. }
      rewrite Forall_forall in Hy. specialize (Hy z Hz).
      unfold newest_first in Hy. lia.
    + rewrite IH.
      destruct (p h), (p y); simpl; try reflexivity.
      now rewrite E.
Qed.

(** Filtering commutes with the ordering by date. *)
Lemma filter_order_by_date_desc (p : Transaction -> bool) ts :
  filter p (order_by_date_desc ts) = order_by_date_desc (filter p ts).
Proof.
  induction ts as [|t r IH]; simpl; [reflexivity|].
  rewrite filter_insert_by_date_desc by apply order_by_date_desc_sorted.
  rewrite IH. now destruct (p t).
Qed.

Lemma filter_listing_after_add (p : Transaction -> bool) db user now form m :
  p (stored_row db user now form m) = false ->
  filter p
    (list_transactions
       {| users := users db;
          transactions := transactions db ++ [stored_row db user now form m] |}
       (u_id user))
  = filter p (list_transactions db (u_id user)).
Proof.
  intros Hp. unfold list_transactions. simpl.
  rewrite !filter_order_by_date_desc, filter_by_user_id_app. simpl.
  rewrite Z.eqb_refl, filter_app. simpl. rewrite Hp.
  now rewrite app_nil_r.
Qed.

(** X9.  When a logged-in user adds an expense, the total income of the
    user's page stays exactly as it was; when the user adds an income,
    the total expense, the breakdown by category, the chart labels and
    the chart data stay exactly as they were, wherever the new row lands
    in the listing. *)
Theorem X9_incomes_and_expenses_do_not_mix db sess now form user :
  current_user db sess = Some user ->
  validate_transaction form = true ->
  (tf_transaction_type form = Gider ->
     total_income
       (list_transactions (fst (index db sess now (Some form))) (u_id user))
     = total_income (list_transactions db (u_id user)))
  /\ (tf_transaction_type form = Gelir ->
        total_expense
          (list_transactions (fst (index db sess now (Some form)))
                             (u_id user))
        = total_expense (list_transactions db (u_id user))
        /\ expense_by_category
             (list_transactions (fst (index db sess now (Some form)))
                                (u_id user))
           = expense_by_category (list_transactions db (u_id user))
        /\ chart_labels
             (list_transactions (fst (index db sess now (Some form)))
                                (u_id user))
           = chart_labels (list_transactions db (u_id user))
        /\ chart_data
             (list_transactions (fst (index db sess now (Some form)))
                                (u_id user))
           = chart_data (list_transactions db (u_id user))).
Proof.
  intros Hu V.
  destruct (validate_transaction_inv form V) as [m [A _]].
  rewrite (index_valid_post db sess now form user m Hu V A). simpl.
  split.
  - intros Hty. unfold total_income.
    rewrite (filter_listing_after_add is_income); [reflexivity|].
    unfold is_income, stored_row. simpl. now rewrite Hty.
  - intros Hty.
    assert (F : filter is_expense
                  (list_transactions
                     {| users := users db;
                        transactions :=
                          transactions db
                          ++ [stored_row db user now form m] |}
                     (u_id user))
                = filter is_expense (list_transactions db (u_id user))).
    { apply filter_listing_after_add.
      unfold is_expense, stored_row. simpl. now rewrite Hty. }
    assert (E : expense_by_category
                  (list_transactions
                     {| users := users db;
                        transactions :=
                          transactions db
                          ++ [stored_row db user now form m] |}
                     (u_id user))
                = expense_by_category (list_transactions db (u_id user))).
    { unfold expense_by_category.
      rewrite <- fold_add_expense_filter, F.
      apply fold_add_expense_filter. }
    split; [unfold total_expense; now rewrite F|].
    split; [exact E|].
    unfold chart_labels, chart_data. now rewrite E.
Qed.

(* ------------------------------------------------------------------ *)
(** ** X10: only the owner's own requests change the owner's rows *)

Lemma filter_by_user_id_add_other uid db user now form m :
  u_id user <> uid ->
  filter_by_user_id uid
    (transactions db ++ [stored_row db user now form m])
  = filter_by_user_id uid (transactions db).
Proof.
  intros Hne. rewrite filter_by_user_id_app. simpl.
  replace (u_id user =? uid) with false; [apply app_nil_r|].
  symmetry. now apply Z.eqb_neq.
Qed.

(** X10.  After any sequence of requests none of which carries the
    session id of user U, whoever sends them and whatever they ask for,
    the rows that U owns are exactly the rows U owned before, in the same
    order, and so is U's listing. *)
Theorem X10_rows_change_only_under_the_owners_session
    (Salt : Type) (generate_password_hash : Salt -> string -> string)
    (check_password_hash : string -> string -> bool)
    uid trace : forall db,
  Forall (fun event => not_from uid (fst event)) trace ->
  filter_by_user_id uid
    (transactions
       (run Salt generate_password_hash check_password_hash db trace))
  = filter_by_user_id uid (transactions db)
  /\ list_transactions
       (run Salt generate_password_hash check_password_hash db trace) uid
     = list_transactions db uid.
Proof.
  assert (G : forall db,
             Forall (fun event => not_from uid (fst event)) trace ->
             filter_by_user_id uid
               (transactions
                  (run Salt generate_password_hash check_password_hash
                       db trace))
             = filter_by_user_id uid (transactions db)).
  { unfold run.
    induction trace as [|[sess req] rest IH]; intros db H; simpl;
      [reflexivity|].
    inversion H as [|e es Hs Hrest]; subst. simpl in Hs.
    rewrite (IH _ Hrest).
    destruct (serve_cases Salt generate_password_hash check_password_hash
                db sess req)
      as [->|[(salt & form & _ & _ & ->)|[(user & Hcur & ->)
         |(user & now & form & m & Hcur & _ & _ & ->)]]]; simpl.
    - reflexivity.
    - reflexivity.
    - apply current_user_in in Hcur. destruct Hcur as [_ ->].
      apply filter_by_user_id_others. intros E. apply Hs. now rewrite E.
    - apply current_user_in in Hcur. destruct Hcur as [_ ->].
      apply filter_by_user_id_add_other. intros E. apply Hs. now rewrite E. }
  intros db H. split; [now apply G|].
  unfold list_transactions. now rewrite G.
Qed.

(* ------------------------------------------------------------------ *)
(** ** X11: the chart *)

Lemma push_new_NoDup ks c : NoDup ks -> NoDup (push_new ks c).
Proof.
  intros H. unfold push_new.
  destruct (existsb (category_eqb c) ks) eqn:E; [exact H|].
  apply NoDup_snoc; [exact H|].
  intros Hin.
  assert (existsb (category_eqb c) ks = true).
  { apply existsb_exists. exists c. split; [exact Hin|].
    apply category_eqb_refl. }
  congruence.
Qed.

Lemma chart_labels_NoDup ts : NoDup (chart_labels ts).
Proof.
  unfold chart_labels, expense_by_category.
  rewrite keys_fold_add_expense. simpl.
  generalize (map t_category (filter is_expense ts)).
  assert (G : forall cs ks, NoDup ks -> NoDup (fold_left push_new cs ks)).
  { induction cs as [|c r IH]; intros ks H; simpl; [exact H|].
    apply IH. now apply push_new_NoDup. }
  intros cs. apply G. constructor.
Qed.

Lemma lookup_in_keys (d : @Py.dict (option string)) c :
  In c (Py.keys d) -> Py.lookup category_eqb d c <> None.
Proof.
  unfold Py.keys.
  induction d as [|[k v] r IH]; simpl; [intros []|].
  intros [->|Hin].
  - now rewrite category_eqb_refl.
  - destruct (category_eqb k c); [discriminate|now apply IH].
Qed.

Lemma values_by_lookup (d : @Py.dict (option string)) :
  NoDup (Py.keys d) ->
  map Some (Py.values d) = map (Py.lookup category_eqb d) (Py.keys d).
Proof.
  unfold Py.keys, Py.values.
  induction d as [|[k v] r IH]; simpl; [reflexivity|].
  intros H. inversion H as [|x xs Hnotin Hr]; subst.
  rewrite category_eqb_refl. f_equal.
  rewrite (IH Hr). apply map_ext_in.
  intros c Hc. destruct (category_eqb k c) eqn:E; [|reflexivity].
  apply category_eqb_eq in E. subst c. contradiction.
Qed.

Lemma map_Some_inj {A} (l l' : list A) :
  map Some l = map Some l' -> l = l'.
Proof.
  revert l'. induction l as [|x r IH]; intros [|y r'] H; simpl in *;
    try discriminate; [reflexivity|].
  injection H as -> H. f_equal. now apply IH.
Qed.

Lemma lookup_expense_by_category ts c :
  Py.lookup category_eqb (expense_by_category ts) c
  = if existsb (expense_in c) ts then Some (category_total c ts) else None.
Proof.
  unfold expense_by_category, category_total, Py.sum.
  rewrite lookup_fold_add_expense, existsb_filter_nil. simpl.
  now destruct (filter (expense_in c) ts).
Qed.

Lemma filter_all {A} (l : list A) : filter (fun _ => true) l = l.
Proof. induction l as [|x r IH]; simpl; [reflexivity|now rewrite IH]. Qed.

Lemma in_first_seen c cs : In c cs -> In c (first_seen cs).
Proof.
  induction cs as [|x r IH]; simpl; [trivial|].
  destruct (category_eqb x c) eqn:E.
  - apply category_eqb_eq in E. now left.
  - intros [->|Hin]; [now rewrite category_eqb_refl in E|].
    right. apply filter_In. split; [now apply IH|now rewrite E].
Qed.

Lemma chart_labels_iff ts c :
  In c (chart_labels ts)
  <-> exists t, In t ts /\ is_expense t = true /\ t_category t = c.
Proof.
  split.
  - intros Hin. apply lookup_in_keys in Hin.
    rewrite lookup_expense_by_category in Hin.
    destruct (existsb (expense_in c) ts) eqn:E; [|contradiction].
    apply existsb_exists in E. destruct E as [t [Ht E]].
    unfold expense_in in E. apply andb_true_iff in E.
    destruct E as [He Hc]. apply category_eqb_eq in Hc. now exists t.
  - intros [t [Hin [He Hc]]]. unfold chart_labels, expense_by_category.
    rewrite keys_fold_add_expense, fold_push_new. simpl.
    change (fun c0 : option string => negb false)
      with (fun _ : option string => true).
    rewrite filter_all. apply in_first_seen.
    rewrite <- Hc. apply in_map. now apply filter_In.
Qed.

(** X11.  For every list of transactions the chart labels are pairwise
    distinct, a category is a label exactly when the list holds an
    expense of that category, and the chart data line up with the
    labels: the entry at each position is the two-decimal rounding of the
    sum of the magnitudes of the expenses of the category at the same
    position of the labels, so the two lists have the same length. *)
Theorem X11_chart_data_line_up_with_the_labels all_transactions :
  NoDup (chart_labels all_transactions)
  /\ (forall c, In c (chart_labels all_transactions)
                <-> exists t, In t all_transactions
                              /\ is_expense t = true /\ t_category t = c)
  /\ chart_data all_transactions
     = map (fun c => Py.round2 (category_total c all_transactions))
           (chart_labels all_transactions)
  /\ List.length (chart_data all_transactions)
     = List.length (chart_labels all_transactions).
Proof.
  assert (V : Py.values (expense_by_category all_transactions)
              = map (fun c => category_total c all_transactions)
                    (chart_labels all_transactions)).
  { apply map_Some_inj.
    rewrite (values_by_lookup _ (chart_labels_NoDup all_transactions)).
    rewrite map_map. apply map_ext_in. intros c Hc.
    rewrite lookup_expense_by_category.
    apply chart_labels_iff in Hc. destruct Hc as [t [Hin [He Hc]]].
    replace (existsb (expense_in c) all_transactions) with true;
      [reflexivity|].
    symmetry. apply existsb_exists. exists t. split; [exact Hin|].
    unfold expense_in. rewrite He, Hc. apply category_eqb_refl. }
  split; [apply chart_labels_NoDup|]. split; [|split].
  - intros c. apply chart_labels_iff.
  - unfold chart_data. rewrite V. now rewrite map_map.
  - unfold chart_data, chart_labels, Py.values, Py.keys.
    now rewrite !length_map.
Qed.

(* ------------------------------------------------------------------ *)
(** ** X12: resetting twice, and adding after a reset *)

(** X12.  For a logged-in user a second [reset_data] right after the
    first changes nothing more; and a form that validates, posted after
    the reset, leaves the user with a listing of exactly the one stored
    row. *)
Theorem X12_reset_then_reset_or_add db sess user now form m :
  current_user db sess = Some user ->
  reset_data (fst (reset_data db sess)) sess
  = (fst (reset_data db sess), Redirect "index")
  /\ (validate_transaction form = true ->
      tf_amount form = Some m ->
      list_transactions
        (fst (index (fst (reset_data db sess)) sess now (Some form)))
        (u_id user)
      = [stored_row (fst (reset_data db sess)) user now form m]).
Proof.
  intros Hu.
  assert (Hreset : forall d,
             current_user d sess = Some user ->
             reset_data d sess
             = ({| users := users d;
                   transactions :=
                     rows_of_others (u_id user) (transactions d) |},
                Redirect "index")).
  { intros d Hd. unfold reset_data. now rewrite Hd. }
  rewrite (Hreset db Hu). cbn [fst].
  set (db1 := {| users := users db;
                 transactions :=
                   rows_of_others (u_id user) (transactions db) |}).
  assert (Hu1 : current_user db1 sess = Some user).
  { rewrite <- Hu. now apply current_user_users. }
  split.
  - rewrite (Hreset db1 Hu1). unfold db1. cbn [users transactions].
    now rewrite rows_of_others_idem.
  - intros V A.
    rewrite (index_valid_post db1 sess now form user m Hu1 V A). cbn [fst].
    rewrite (list_transactions_after_add db1 user now form m).
    unfold db1 at 2. cbn [transactions].
    now rewrite filter_by_user_id_own.
Qed.

(* ------------------------------------------------------------------ *)
(** ** X13: the rows of the user table *)

(** X13.  In every database that a run of requests reaches from the empty
    one, every user has a username that is not blank and a password hash
    that [generate_password_hash] made, from some salt, of a password
    that is not blank: no row is stored with an empty name or without a
    generated hash. *)
Theorem X13_every_user_has_a_name_and_a_generated_hash
    (Salt : Type) (generate_password_hash : Salt -> string -> string)
    (check_password_hash : string -> string -> bool) trace :
  Forall (fun u =>
            Validators.data_required_str (u_username u) = true
            /\ exists salt password,
                 Validators.data_required_str password = true
                 /\ u_password_hash u
                    = generate_password_hash salt password)
    (users (run Salt generate_password_hash check_password_hash
                empty_db trace)).
Proof.
  assert (G : forall db,
             Forall (fun u =>
                       Validators.data_required_str (u_username u) = true
                       /\ exists salt password,
                            Validators.data_required_str password = true
                            /\ u_password_hash u
                               = generate_password_hash salt password)
               (users db) ->
             Forall (fun u =>
                       Validators.data_required_str (u_username u) = true
                       /\ exists salt password,
                            Validators.data_required_str password = true
                            /\ u_password_hash u
                               = generate_password_hash salt password)
               (users (run Salt generate_password_hash check_password_hash
                           db trace))).
  { unfold run.
    induction trace as [|[sess req] rest IH]; intros db H; simpl;
      [exact H|].
    apply IH.
    destruct (serve_cases Salt generate_password_hash check_password_hash
                db sess req)
      as [->|[(salt & form & V & _ & ->)|[(user & _ & ->)
         |(user & now & form & m & _ & _ & _ & ->)]]]; simpl;
      try exact H.
    apply Forall_app. split; [exact H|].
    constructor; [|constructor]. simpl.
    unfold validate_registration in V.
    apply andb_true_iff in V. destruct V as [V Vp].
    apply andb_true_iff in V. destruct V as [_ Vn].
    split; [exact Vn|]. now exists salt, (rf_password form). }
  apply G. constructor.
Qed.

(* ------------------------------------------------------------------ *)
(** ** The sign of a binary64 sum *)

Lemma shr_1_not_negative mrs : 0 <= shr_m mrs -> 0 <= shr_m (shr_1 mrs).
Proof.
  destruct mrs as [m r s]. simpl.
  destruct m as [|p|p]; simpl; try lia; destruct p; simpl; lia.
Qed.

Lemma iter_shr_1_not_negative p : forall mrs,
  0 <= shr_m mrs -> 0 <= shr_m (iter_pos shr_1 p mrs).
Proof.
  induction p as [p IH|p IH|]; intros mrs H; simpl.
  - apply IH, IH. now apply shr_1_not_negative.
  - now apply IH, IH.
  - now apply shr_1_not_negative.
Qed.

Lemma shr_fexp_not_negative m e l :
  0 <= m -> 0 <= shr_m (fst (shr_fexp prec emax m e l)).
Proof.
  intros H. unfold shr_fexp, shr.
  assert (0 <= shr_m (shr_record_of_loc m l)).
  { destruct l as [|[]]; simpl; exact H. }
  destruct (fexp prec emax (Zdigits2 m + e) - e); simpl; try assumption.
  now apply iter_shr_1_not_negative.
Qed.

Lemma round_nearest_even_not_negative m l :
  0 <= m -> 0 <= round_nearest_even m l.
Proof.
  intros H. unfold round_nearest_even.
  destruct l as [|[]]; try lia. destruct (Z.even m); lia.
Qed.

Lemma binary_round_aux_sign s m e l :
  0 <= m ->
  binary_round_aux prec emax s m e l = S754_zero s
  \/ binary_round_aux prec emax s m e l = S754_infinity s
  \/ exists m' e', binary_round_aux prec emax s m e l = S754_finite s m' e'.
Proof.
  intros H. unfold binary_round_aux.
  pose proof (shr_fexp_not_negative m e l H) as H1.
  destruct (shr_fexp prec emax m e l) as [mrs' e'].
  simpl in H1.
  pose proof (shr_fexp_not_negative
                (round_nearest_even (shr_m mrs') (loc_of_shr_record mrs'))
                e' loc_Exact
                (round_nearest_even_not_negative _ _ H1)) as H2.
  destruct (shr_fexp prec emax
              (round_nearest_even (shr_m mrs') (loc_of_shr_record mrs'))
              e' loc_Exact) as [mrs'' e''].
  simpl in H2.
  destruct (shr_m mrs'') as [|p|p]; [now left| |lia].
  destruct (e'' <=? emax - prec); [|right; now left].
  right. right. now exists p, e''.
Qed.

Lemma binary_round_sign s m e :
  binary_round prec emax s m e = S754_zero s
  \/ binary_round prec emax s m e = S754_infinity s
  \/ exists m' e', binary_round prec emax s m e = S754_finite s m' e'.
Proof.
  unfold binary_round.
  destruct (shl_align m e (fexp prec emax (Z.pos (digits2_pos m) + e)))
    as [mz ez].
  apply binary_round_aux_sign. lia.
Qed.

Lemma SFadd_not_negative x y :
  sf_not_negative x -> sf_not_negative y ->
  sf_not_negative (SFadd prec emax x y).
Proof.
  destruct x as [[|]|[|]| |[|] mx ex]; simpl; try contradiction; intros _;
    destruct y as [[|]|[|]| |[|] my ey]; simpl; try contradiction;
    intros _; try exact I.
  destruct (binary_round_sign false
              (fst (shl_align mx ex (Z.min ex ey))
               + fst (shl_align my ey (Z.min ex ey)))%positive
              (Z.min ex ey))
    as [E|[E|(m' & e' & E)]]; rewrite E; exact I.
Qed.

Lemma SFadd_not_positive x y :
  sf_not_positive x ->
  (exists m e, y = S754_finite true m e) \/ y = S754_infinity true ->
  sf_not_positive (SFadd prec emax x y).
Proof.
  intros Hx [(my & ey & ->)| ->].
  - destruct x as [[|]|[|]| |[|] mx ex]; simpl in *; try contradiction;
      try exact I.
    destruct (binary_round_sign true
                (fst (shl_align mx ex (Z.min ex ey))
                 + fst (shl_align my ey (Z.min ex ey)))%positive
                (Z.min ex ey))
      as [E|[E|(m' & e' & E)]]; rewrite E; exact I.
  - destruct x as [[|]|[|]| |[|] mx ex]; simpl in *; try contradiction;
      exact I.
Qed.

Lemma positive_not_negative m :
  PrimFloat.ltb 0%float m = true -> sf_not_negative (Prim2SF m).
Proof.
  intros P. destruct (positive_float_cases m P) as [E|[mant [e E]]];
    now rewrite E.
Qed.

Lemma negative_float_cases m :
  PrimFloat.ltb m 0%float = true ->
  (exists mant e, Prim2SF m = S754_finite true mant e)
  \/ Prim2SF m = S754_infinity true.
Proof.
  rewrite ltb_spec. change (Prim2SF 0%float) with (S754_zero false).
  destruct (Prim2SF m) as [s|s| |s mant e]; unfold SFltb, SFcompare;
    try discriminate.
  - destruct s; [now right|discriminate].
  - destruct s; [|discriminate]. left. now exists mant, e.
Qed.

Lemma leb_zero_not_negative x :
  sf_not_negative (Prim2SF x) -> PrimFloat.leb 0%float x = true.
Proof.
  rewrite leb_spec. change (Prim2SF 0%float) with (S754_zero false).
  destruct (Prim2SF x) as [[|]|[|]| |[|] m e]; simpl; try contradiction;
    reflexivity.
Qed.

(* ------------------------------------------------------------------ *)
(** ** X15: how a session comes and goes *)

(** X15.  A request leaves the session of its client as it was, unless
    it is a logout, which clears it, or a login whose form validates and
    whose password passes the check against the user found under the
    submitted username: only then is a session established, and it names
    that user.  Neither a login nor a logout changes the database. *)
Theorem X15_session_changes_only_by_login_or_logout
    (Salt : Type) (generate_password_hash : Salt -> string -> string)
    (check_password_hash : string -> string -> bool)
    db sess req :
  (snd (fst (handle Salt generate_password_hash check_password_hash
                    db sess req))
   = sess
   \/ (req = ReqLogout Salt
       /\ snd (fst (handle Salt generate_password_hash check_password_hash
                           db sess req))
          = None)
   \/ (exists form u,
         req = ReqLogin Salt (Some form)
         /\ validate_login form = true
         /\ first (users_by_username (lf_username form) (users db)) = Some u
         /\ check_password check_password_hash u (lf_password form) = true
         /\ snd (fst (handle Salt generate_password_hash
                             check_password_hash db sess req))
            = Some (u_id u)))
  /\ (forall posted,
        fst (fst (handle Salt generate_password_hash check_password_hash
                         db sess (ReqLogin Salt posted)))
        = db)
  /\ fst (fst (handle Salt generate_password_hash check_password_hash
                      db sess (ReqLogout Salt)))
     = db.
Proof.
  split; [|split].
  - destruct req as [salt posted|posted| | |now posted]; simpl.
    + left. now destruct (register Salt generate_password_hash db salt posted).
    + unfold login.
      destruct posted as [form|]; simpl; [|now left].
      destruct (validate_login form) eqn:V; [|now left].
      destruct (first (users_by_username (lf_username form) (users db)))
        as [u|] eqn:E; [|now left].
      destruct (check_password check_password_hash u (lf_password form))
        eqn:C; [|now left].
      right. right. now exists form, u.
    + unfold logout. destruct (current_user db sess); simpl;
        [right; left; now split|now left].
    + left. now destruct (reset_data db sess).
    + left. now destruct (index db sess now posted).
  - intros posted. simpl.
    now destruct (login check_password_hash db sess posted).
  - simpl. now destruct (logout db sess).
Qed.

(* ------------------------------------------------------------------ *)
(** ** X16: the size of the chart *)

Lemma well_formed_category t :
  row_well_formed t = true ->
  exists c, t_category t = Some c /\ In c category_choices.
Proof.
  unfold row_well_formed. intros H.
  repeat (apply andb_true_iff in H; destruct H as [H ?]).
  destruct (t_category t) as [c|]; [|discriminate].
  exists c. split; [reflexivity|]. now apply valid_choice_in.
Qed.

(** X16.  For a listing of rows as the form lets them in, every chart
    label is one of the eight categories of the form, never the missing
    category, and the chart has at most eight entries. *)
Theorem X16_chart_has_at_most_the_eight_categories all_transactions :
  Forall (fun t => row_well_formed t = true) all_transactions ->
  (forall c, In c (chart_labels all_transactions) ->
             exists name, c = Some name /\ In name category_choices)
  /\ (List.length (chart_labels all_transactions) <= 8)%nat
  /\ (List.length (chart_data all_transactions) <= 8)%nat.
Proof.
  intros Hwf.
  assert (Hin : forall c, In c (chart_labels all_transactions) ->
                          exists name, c = Some name
                                       /\ In name category_choices).
  { intros c Hc. apply chart_labels_iff in Hc.
    destruct Hc as [t [Ht [_ Hc]]].
    rewrite Forall_forall in Hwf.
    destruct (well_formed_category t (Hwf t Ht)) as [name [E Hn]].
    exists name. split; [congruence|exact Hn]. }
  assert (Hlen : (List.length (chart_labels all_transactions) <= 8)%nat).
  { change 8%nat with (List.length (map Some category_choices)).
    apply NoDup_incl_length; [apply chart_labels_NoDup|].
    intros c Hc. destruct (Hin c Hc) as [name [-> Hn]].
    now apply in_map. }
  split; [exact Hin|]. split; [exact Hlen|].
  unfold chart_data, chart_labels, Py.values, Py.keys in *.
  now rewrite !length_map in *.
Qed.

End Interpreter.

(* ================================================================== *)
(** * The properties at work on the sample data

    Each statement above holds for both interpreters; here the handlers
    run on the sample data, under CPython 3.12 unless said otherwise. *)


Lemma C1_ledger_scoped_witness :
  current_user demo_db (Some 1) = Some alice
  /\ 2 <> u_id alice
  /\ filter_by_user_id 2 (transactions (fst (reset_data demo_db (Some 1))))
     = [rent].
Proof.
  split; [reflexivity|]. split; [discriminate|].
  exact (proj1 (proj2 (proj2
    (C1_ledger_scoped_to_owner Py.From312 demo_db (Some 1) 30 None alice 2
       eq_refl ltac:(discriminate))))).
Defined.

Lemma C7_reset_witness :
  current_user demo_db (Some 1) = Some alice
  /\ list_transactions (fst (reset_data demo_db (Some 1))) 1 = []
  /\ transactions (fst (reset_data demo_db (Some 1))) = [rent].
Proof.
  split; [reflexivity|]. split; [|reflexivity].
  exact (proj1 (proj2
    (C7_reset_empties_owner_only demo_db (Some 1) alice eq_refl))).
Defined.

Lemma C2_stored_amount_witness :
  current_user demo_db (Some 1) = Some alice
  /\ validate_transaction (expense_form "market") = true
  /\ exists m t,
       tf_amount (expense_form "market") = Some m
       /\ PrimFloat.ltb 0%float m = true
       /\ index Py.From312 demo_db (Some 1) 30 (Some (expense_form "market"))
          = ({| users := users demo_db;
                transactions := transactions demo_db ++ [t] |},
             Redirect "index")
       /\ t_user_id t = u_id alice
       /\ t_type t = tf_transaction_type (expense_form "market")
       /\ (t_type t = Gider /\ t_amount t = PrimFloat.opp m
           \/ t_type t = Gelir /\ t_amount t = m)
       /\ sign_matches_type t = true.
Proof.
  split; [reflexivity|]. split; [reflexivity|].
  exact (proj1 (proj2 (C2_stored_amount_sign_matches_type Py.From312))
           demo_db (Some 1) 30 (expense_form "market") alice
           eq_refl eq_refl).
Defined.

Lemma C3_totals_witness :
  exact_sum Py.From312 (map t_amount (filter is_income busy_ledger)) = true
  /\ exact_sum Py.From312 (map t_amount (filter is_expense busy_ledger)) = true
  /\ (exact_value (page_total_income (index_page Py.From312 busy_ledger))
      = Some (units_sum (map t_amount (filter is_income busy_ledger)))
      /\ exact_value (page_total_expense (index_page Py.From312 busy_ledger))
         = Some (Z.abs
                   (units_sum
                      (map t_amount (filter is_expense busy_ledger)))))
  /\ page_total_income (index_page Py.From312 busy_ledger) = 1250.5%float
  /\ page_total_expense (index_page Py.From312 busy_ledger) = 577.75%float
  /\ page_net_balance (index_page Py.From312 busy_ledger) = 672.75%float
  /\ page_total_income (index_page Py.UpTo311 busy_ledger) = 1250.5%float
  /\ page_total_expense (index_page Py.UpTo311 busy_ledger) = 577.75%float
  /\ page_net_balance (index_page Py.UpTo311 busy_ledger) = 672.75%float
  /\ current_user busy_db (Some 1) = Some alice
  /\ index Py.From312 busy_db (Some 1) 60 None
     = (busy_db, RenderIndex None (index_page Py.From312 busy_ledger)).
Proof.
  split; [reflexivity|]. split; [reflexivity|].
  split.
  { destruct (proj1 (proj2 (C3_totals_of_the_index_page Py.From312))
                busy_ledger eq_refl eq_refl) as [Hi [He _]].
    split; [exact Hi|exact He]. }
  repeat (split; [reflexivity|]).
  reflexivity.
Defined.

Lemma C5_login_failure_witness :
  validate_login alice_wrong_login = true
  /\ login demo_check_password_hash demo_db None (Some alice_wrong_login)
     = (None,
        RenderLogin (Some alice_wrong_login) (Some invalid_credentials_error))
  /\ login demo_check_password_hash empty_db None (Some alice_wrong_login)
     = (None,
        RenderLogin (Some alice_wrong_login) (Some invalid_credentials_error)).
Proof.
  split; [reflexivity|]. split.
  - apply (C5_login_failure_is_generic demo_check_password_hash demo_db None
             alice_wrong_login eq_refl).
    right. exists alice. split; reflexivity.
  - apply (C5_login_failure_is_generic demo_check_password_hash empty_db None
             alice_wrong_login eq_refl).
    left. intros u [].
Defined.

Lemma C6_register_witness :
  validate_registration alice_registration = true
  /\ register ascii demo_generate_password_hash demo_db "x"%char
       (Some alice_registration)
     = (demo_db,
        RenderRegister (Some alice_registration)
                       (Some duplicate_username_error)).
Proof.
  split; [reflexivity|].
  apply (proj1 (C6_register_duplicate_or_one_hashed_user Py.From312
                  ascii demo_generate_password_hash demo_check_password_hash
                  demo_generate_not_plain demo_db "x"%char alice_registration
                  eq_refl)).
  exists alice. split; [now left|reflexivity].
Defined.

Lemma C8_register_then_login_witness :
  validate_registration carol_registration = true
  /\ exists u db1,
       register ascii demo_generate_password_hash demo_db "c"%char
         (Some carol_registration)
       = (db1, Redirect "login")
       /\ In u (users db1)
       /\ u_username u = "carol"
       /\ login demo_check_password_hash
            (run Py.From312 ascii demo_generate_password_hash demo_check_password_hash
                 db1 [(Some 1, ReqReset ascii)])
            None (Some carol_login)
          = (Some (u_id u), Redirect "index")
       /\ current_user
            (run Py.From312 ascii demo_generate_password_hash demo_check_password_hash
                 db1 [(Some 1, ReqReset ascii)])
            (Some (u_id u))
          = Some u.
Proof.
  split; [reflexivity|].
  apply (C8_register_then_login Py.From312
           ascii demo_generate_password_hash demo_check_password_hash
           demo_check_generate demo_db "c"%char carol_registration
           [(Some 1, ReqReset ascii)] None carol_login eq_refl).
  - intros u [<-|[<-|[]]]; discriminate.
  - reflexivity.
  - reflexivity.
  - reflexivity.
Defined.

(** C10, as stated, fails, on either interpreter.  Alice submits five
    valid expenses: 1, 1 and 2^53 in Gıda, then 1 and 1 in Kira.  Her
    listing is then rendered with the dict values 2 (Kira) and 2^53
    (Gıda), because 2^53 + 1 is rounded back to 2^53 twice; the chart
    data are the same two numbers, and they add up to 2^53 + 2.  The
    total expense of the same page is 2^53 + 4: the plain sum
    1 + 1 + 2^53 + 1 + 1 in the order of the listing rounds 2^53 + 3 up
    to 2^53 + 4, and the compensated sum of 3.12 returns the same, exact
    value.  The difference of 2 is no effect of the rounding to two
    decimals, which changes neither number here.  Every stored row of the
    listing has the sign of its type. *)
Lemma C10_breakdown_counterexample :
  (~ breakdown_adds_up Py.UpTo311 (rounding_ledger Py.UpTo311)
   /\ ~ breakdown_adds_up Py.From312 (rounding_ledger Py.From312))
  /\ (signs_ok (rounding_db Py.UpTo311) /\ signs_ok (rounding_db Py.From312))
  /\ (exists page,
        index Py.UpTo311 (rounding_db Py.UpTo311) (Some 1) 6 None
        = (rounding_db Py.UpTo311, RenderIndex None page)
        /\ page_transactions page = rounding_ledger Py.UpTo311
        /\ page_chart_labels page = [Some "Kira"; Some "Gıda"]
        /\ page_chart_data page = [2%float; 9007199254740992%float]
        /\ page_total_expense page = 9007199254740996%float)
  /\ (exists page,
        index Py.From312 (rounding_db Py.From312) (Some 1) 6 None
        = (rounding_db Py.From312, RenderIndex None page)
        /\ page_transactions page = rounding_ledger Py.From312
        /\ page_chart_labels page = [Some "Kira"; Some "Gıda"]
        /\ page_chart_data page = [2%float; 9007199254740992%float]
        /\ page_total_expense page = 9007199254740996%float)
  /\ rounding_ledger Py.UpTo311 = rounding_ledger Py.From312
  /\ Py.values (expense_by_category (rounding_ledger Py.From312))
     = [2%float; 9007199254740992%float]
  /\ Py.sum (Py.values (expense_by_category (rounding_ledger Py.From312)))
     = 9007199254740994%float
  /\ Py.sum (chart_data (rounding_ledger Py.From312))
     = 9007199254740994%float.
Proof.
  split; [|split; [|split; [|split; [|repeat split]]]].
  - split; unfold breakdown_adds_up; vm_compute; discriminate.
  - split; unfold signs_ok; vm_compute; repeat constructor.
  - eexists. split; [reflexivity|]. repeat split.
  - eexists. split; [reflexivity|]. repeat split.
Qed.

Lemma C10_breakdown_witness :
  Forall (fun t => sign_matches_type t = true) busy_ledger
  /\ additions_exact Py.From312 busy_ledger = true
  /\ breakdown_adds_up Py.From312 busy_ledger
  /\ additions_exact Py.UpTo311 busy_ledger = true
  /\ breakdown_adds_up Py.UpTo311 busy_ledger
  /\ Py.values (expense_by_category busy_ledger)
     = [327.5%float; 250.25%float]
  /\ page_total_expense (index_page Py.From312 busy_ledger) = 577.75%float.
Proof.
  assert (S : Forall (fun t => sign_matches_type t = true) busy_ledger).
  { repeat constructor. }
  split; [exact S|]. split; [reflexivity|].
  split.
  { exact (proj1 (C10_breakdown_adds_up_when_exact Py.From312 busy_ledger
                    S eq_refl)). }
  split; [reflexivity|].
  split.
  { exact (proj1 (C10_breakdown_adds_up_when_exact Py.UpTo311 busy_ledger
                    S eq_refl)). }
  split; reflexivity.
Defined.

Lemma X1_login_required_witness :
  current_user demo_db (Some 7) = None
  /\ reset_data demo_db (Some 7) = (demo_db, Redirect "login").
Proof.
  split; [reflexivity|].
  exact (proj1 (proj2
    (X1_login_required Py.From312 ascii demo_generate_password_hash
       demo_check_password_hash demo_db (Some 7) (ReqReset ascii) eq_refl))).
Defined.

Lemma X2_index_rejects_witness :
  current_user demo_db (Some 1) = Some alice
  /\ index Py.From312 demo_db (Some 1) 30 (Some (expense_of 0%float "Gıda"))
     = (demo_db,
        RenderIndex (Some (expense_of 0%float "Gıda"))
                    (index_page Py.From312 [groceries; salary])).
Proof.
  split; [reflexivity|].
  apply (X2_index_rejects_invalid_submission Py.From312 demo_db (Some 1) 30
           (expense_of 0%float "Gıda") alice eq_refl).
  right. right. right. left. exists 0%float. split; [reflexivity|].
  right. right. reflexivity.
Defined.

Lemma X3_logout_witness :
  current_user demo_db (Some 2) = Some bob
  /\ logout demo_db (Some 2) = (None, Redirect "login").
Proof.
  split; [reflexivity|].
  exact (proj1 (X3_logout_ends_the_session Py.From312 demo_db (Some 2) bob eq_refl)).
Defined.

Lemma X5_login_outcome_witness :
  first (users_by_username "alice" (users demo_db)) = Some alice
  /\ login demo_check_password_hash
       (run Py.From312 ascii demo_generate_password_hash demo_check_password_hash
            demo_db
            [(None, ReqRegister ascii "x"%char (Some alice_registration));
             (Some 1, ReqReset ascii)])
       None (Some alice_wrong_login)
     = login demo_check_password_hash demo_db None (Some alice_wrong_login).
Proof.
  split; [reflexivity|].
  exact (proj2 (X5_login_outcome_is_stable Py.From312
                  ascii demo_generate_password_hash demo_check_password_hash
                  demo_db
                  [(None, ReqRegister ascii "x"%char (Some alice_registration));
                   (Some 1, ReqReset ascii)]
                  None alice_wrong_login alice eq_refl)).
Defined.

Lemma X6_login_session_witness :
  keys_ok demo_db
  /\ login demo_check_password_hash demo_db None
       (Some {| lf_csrf_ok := true; lf_username := "bob";
                lf_password := "builder" |})
     = (Some 2, Redirect "index").
Proof.
  split; [exact demo_db_keys_ok|].
  exact (proj1 (X6_login_establishes_the_session_of_the_user Py.From312
                  demo_check_password_hash demo_db None
                  {| lf_csrf_ok := true; lf_username := "bob";
                     lf_password := "builder" |}
                  bob 30 demo_db_keys_ok eq_refl eq_refl eq_refl)).
Defined.

Lemma X7_new_user_witness :
  keys_ok demo_db
  /\ validate_registration carol_registration = true
  /\ exists u db1,
       register ascii demo_generate_password_hash demo_db "c"%char
         (Some carol_registration)
       = (db1, Redirect "login")
       /\ current_user db1 (Some (u_id u)) = Some u
       /\ u_username u = "carol"
       /\ list_transactions db1 (u_id u) = []
       /\ index Py.From312 db1 (Some (u_id u)) 40 None
          = (db1,
             RenderIndex None
               {| page_transactions := [];
                  page_total_income := 0%float;
                  page_total_expense := 0%float;
                  page_net_balance := 0%float;
                  page_chart_labels := [];
                  page_chart_data := [] |}).
Proof.
  split; [exact demo_db_keys_ok|]. split; [reflexivity|].
  apply (X7_new_user_starts_with_an_empty_ledger Py.From312
           ascii demo_generate_password_hash demo_db "c"%char
           carol_registration 40 demo_db_keys_ok eq_refl).
  intros u [<-|[<-|[]]]; discriminate.
Defined.

Lemma X8_new_row_witness :
  current_user demo_db (Some 1) = Some alice
  /\ validate_transaction (expense_form "simit") = true
  /\ list_transactions
       (fst (index Py.From312 demo_db (Some 1) 30 (Some (expense_form "simit")))) 1
     = [stored_row demo_db alice 30 (expense_form "simit") 300%float;
        groceries; salary].
Proof.
  split; [reflexivity|]. split; [reflexivity|].
  apply (proj2 (X8_new_row_in_the_listing Py.From312 demo_db (Some 1) 30
                  (expense_form "simit") alice 300%float
                  eq_refl eq_refl eq_refl)).
  intros t [<-|[<-|[<-|[]]]] _; simpl; lia.
Defined.

Lemma X9_do_not_mix_witness :
  current_user demo_db (Some 1) = Some alice
  /\ validate_transaction (expense_form "simit") = true
  /\ total_income Py.From312
       (list_transactions
          (fst (index Py.From312 demo_db (Some 1) 12 (Some (expense_form "simit")))) 1)
     = total_income Py.From312 (list_transactions demo_db 1).
Proof.
  split; [reflexivity|]. split; [reflexivity|].
  exact (proj1 (X9_incomes_and_expenses_do_not_mix Py.From312 demo_db (Some 1) 12
                  (expense_form "simit") alice eq_refl eq_refl)
           eq_refl).
Defined.

Lemma X10_rows_change_witness :
  Forall (fun event => not_from 2 (fst event))
    [(Some 1, ReqReset ascii);
     (Some 1, ReqIndex ascii 40 (Some (expense_form "simit")))]
  /\ list_transactions
       (run Py.From312 ascii demo_generate_password_hash demo_check_password_hash
            demo_db
            [(Some 1, ReqReset ascii);
             (Some 1, ReqIndex ascii 40 (Some (expense_form "simit")))])
       2
     = [rent].
Proof.
  assert (H : Forall (fun event => not_from 2 (fst event))
                [(Some 1, ReqReset ascii);
                 (Some 1, ReqIndex ascii 40 (Some (expense_form "simit")))]).
  { repeat constructor; discriminate. }
  split; [exact H|].
  exact (proj2 (X10_rows_change_only_under_the_owners_session Py.From312
                  ascii demo_generate_password_hash demo_check_password_hash
                  2 _ demo_db H)).
Defined.

Lemma X12_reset_witness :
  current_user demo_db (Some 1) = Some alice
  /\ reset_data (fst (reset_data demo_db (Some 1))) (Some 1)
     = (fst (reset_data demo_db (Some 1)), Redirect "index").
Proof.
  split; [reflexivity|].
  exact (proj1 (X12_reset_then_reset_or_add Py.From312 demo_db (Some 1) alice 30
                  (expense_form "simit") 300%float eq_refl)).
Defined.

(* ------------------------------------------------------------------ *)
(** ** X14: the totals of the page are never negative *)

(** X14.  Under the plain summation of CPython up to 3.11: when every row
    of a listing has the sign of its type, as every stored row has, the
    total income and the total expense that the page reports are never
    negative and never NaN: each is a zero, a positive number or the
    positive infinity. *)
Theorem X14_reported_totals_are_not_negative all_transactions :
  Forall (fun t => sign_matches_type t = true) all_transactions ->
  PrimFloat.leb 0%float
    (page_total_income (index_page Py.UpTo311 all_transactions))
  = true
  /\ PrimFloat.leb 0%float
       (page_total_expense (index_page Py.UpTo311 all_transactions))
     = true.
Proof.
  intros Hs. split; apply leb_zero_not_negative; simpl.
  - unfold total_income. rewrite builtin_sum_plain. unfold Py.sum.
    assert (G : forall ts acc,
               Forall (fun t => sign_matches_type t = true) ts ->
               sf_not_negative (Prim2SF acc) ->
               sf_not_negative
                 (Prim2SF (fold_left PrimFloat.add
                             (map t_amount (filter is_income ts)) acc))).
    { induction ts as [|t r IH]; intros acc H Hacc; simpl; [exact Hacc|].
      inversion H as [|x xs Ht Hr]; subst.
      destruct (is_income t) eqn:Ei; simpl; [|now apply IH].
      apply IH; [exact Hr|].
      rewrite add_spec. apply SFadd_not_negative; [exact Hacc|].
      apply positive_not_negative.
      unfold sign_matches_type in Ht. rewrite Ei in Ht.
      destruct (is_expense t) eqn:Ee; [|exact Ht].
      unfold is_income, is_expense in *.
      apply String.eqb_eq in Ei, Ee. rewrite Ei in Ee. discriminate. }
    apply G; [exact Hs|exact I].
  - rewrite abs_spec. unfold total_expense. rewrite builtin_sum_plain.
    unfold Py.sum.
    assert (G : forall ts acc,
               Forall (fun t => sign_matches_type t = true) ts ->
               sf_not_positive (Prim2SF acc) ->
               sf_not_positive
                 (Prim2SF (fold_left PrimFloat.add
                             (map t_amount (filter is_expense ts)) acc))).
    { induction ts as [|t r IH]; intros acc H Hacc; simpl; [exact Hacc|].
      inversion H as [|x xs Ht Hr]; subst.
      destruct (is_expense t) eqn:Ee; simpl; [|now apply IH].
      apply IH; [exact Hr|].
      rewrite add_spec. apply SFadd_not_positive; [exact Hacc|].
      apply negative_float_cases.
      unfold sign_matches_type in Ht. now rewrite Ee in Ht. }
    assert (H0 : sf_not_positive (Prim2SF Py.zero)) by exact I.
    pose proof (G all_transactions Py.zero Hs H0) as H.
    destruct (Prim2SF (fold_left PrimFloat.add
                         (map t_amount (filter is_expense all_transactions))
                         Py.zero)) as [[|]|[|]| |[|] m e];
      simpl in *; try contradiction; exact I.
Qed.

Lemma X14_reported_totals_witness :
  Forall (fun t => sign_matches_type t = true) busy_ledger
  /\ PrimFloat.leb 0%float
       (page_total_income (index_page Py.UpTo311 busy_ledger))
     = true
  /\ PrimFloat.leb 0%float
       (page_total_expense (index_page Py.UpTo311 busy_ledger))
     = true.
Proof.
  assert (S : Forall (fun t => sign_matches_type t = true) busy_ledger).
  { repeat constructor. }
  split; [exact S|].
  exact (X14_reported_totals_are_not_negative busy_ledger S).
Defined.

Lemma X16_chart_witness :
  Forall (fun t => row_well_formed t = true) [groceries; salary]
  /\ (List.length (chart_labels [groceries; salary]) <= 8)%nat.
Proof.
  assert (W : Forall (fun t => row_well_formed t = true)
                     [groceries; salary]).
  { repeat constructor. }
  split; [exact W|].
  exact (proj1 (proj2
    (X16_chart_has_at_most_the_eight_categories [groceries; salary] W))).
Defined.

